(** * pd_team_incident_exporter: a shallow embedding and its properties

    The program exports the incidents of a PagerDuty team to a CSV file.
    Its functions are embedded below in the order of the source file
    [pd_team_incident_exporter.py]:

    - Python [str] values are Rocq strings, read as sequences of code
      points below 256 (Latin-1);
    - decoded JSON documents are values of the inductive type [json], with
      Python's truthiness, [dict.get], iteration and [str()] on them;
    - the network, the terminal, the clock and the file system are an
      explicit [world] threaded through a small state-and-outcome monad:
      the service is the sequence of responses it gives, in order. *)

From Stdlib Require Import ZArith Ascii String List Bool Lia.
From Stdlib Require Import DecimalString.
From stdpp Require Import gmap strings.
Import ListNotations.

Local Open Scope Z_scope.

(** * Python strings *)

Module PyStr.

Definition code (c : ascii) : Z := Z.of_nat (nat_of_ascii c).

Definition in_range (lo hi : Z) (c : ascii) : bool :=
  (lo <=? code c) && (code c <=? hi).

Definition is_upper (c : ascii) : bool := in_range 65 90 c.
Definition is_lower (c : ascii) : bool := in_range 97 122 c.
Definition is_digit (c : ascii) : bool := in_range 48 57 c.

(** The regular-expression class [[A-Za-z0-9]]. *)
Definition is_alnum (c : ascii) : bool := is_upper c || is_lower c || is_digit c.

(** The class [[A-Z0-9]]. *)
Definition is_upper_or_digit (c : ascii) : bool := is_upper c || is_digit c.

(** [str.isspace] on the code points below 256: tab, line feed, vertical
    tab, form feed, carriage return, the four separators 28..31, space,
    next line (133) and no-break space (160). *)
Definition is_space (c : ascii) : bool :=
  in_range 9 13 c || in_range 28 32 c || (code c =? 133) || (code c =? 160).

(** [str.lower] on one code point below 256: the letters A..Z and the
    Latin-1 capitals 192..222 (the multiplication sign 215 apart) move up
    by 32. *)
Definition lower_char (c : ascii) : ascii :=
  if is_upper c || (in_range 192 222 c && negb (code c =? 215))
  then ascii_of_nat (nat_of_ascii c + 32)
  else c.

Fixpoint lower (s : string) : string :=
  match s with
  | EmptyString => EmptyString
  | String c s' => String (lower_char c) (lower s')
  end.

Definition is_empty (s : string) : bool :=
  match s with EmptyString => true | _ => false end.

(** [str.lstrip], [str.rstrip] and [str.strip] for a set of characters. *)
Fixpoint lstrip (p : ascii -> bool) (s : string) : string :=
  match s with
  | EmptyString => EmptyString
  | String c s' => if p c then lstrip p s' else s
  end.

Fixpoint rstrip (p : ascii -> bool) (s : string) : string :=
  match s with
  | EmptyString => EmptyString
  | String c s' =>
      let r := rstrip p s' in
      if is_empty r && p c then EmptyString else String c r
  end.

Definition strip (p : ascii -> bool) (s : string) : string :=
  rstrip p (lstrip p s).

(** [re.sub(cls+, repl, s)]: every maximal run of characters of the class
    is replaced by one copy of [repl]; [in_run] tells that the character
    before belongs to a run already replaced. *)
Fixpoint re_sub_runs_from (in_run : bool) (cls : ascii -> bool)
         (repl : string) (s : string) : string :=
  match s with
  | EmptyString => EmptyString
  | String c s' =>
      if cls c
      then if in_run
           then re_sub_runs_from true cls repl s'
           else repl +:+ re_sub_runs_from true cls repl s'
      else String c (re_sub_runs_from false cls repl s')
  end.

Definition re_sub_runs := re_sub_runs_from false.

Fixpoint all_chars (p : ascii -> bool) (s : string) : bool :=
  match s with
  | EmptyString => true
  | String c s' => p c && all_chars p s'
  end.

(** Decimal rendering of an integer, as [str(n)] gives it. *)
Definition of_Z (n : Z) : string := NilZero.string_of_int (Z.to_int n).

End PyStr.

(** * Decoded JSON documents *)

(** What [response.json()] returns: [None], a [bool], an [int], a [str], a
    [list] or a [dict].  A [dict] keeps its items in insertion order; a key
    is looked up at its first occurrence.  Numbers are integers here. *)
#[warnings="-register-all"]
Inductive json : Type :=
| JNull
| JBool (b : bool)
| JInt (n : Z)
| JStr (s : string)
| JList (items : list json)
| JDict (items : list (string * json)).

Module Py.

(** Truth value of an object, as [if x], [not x] and [x or y] test it. *)
Definition truthy (j : json) : bool :=
  match j with
  | JNull => false
  | JBool b => b
  | JInt n => negb (n =? 0)
  | JStr s => negb (PyStr.is_empty s)
  | JList l => match l with [] => false | _ => true end
  | JDict l => match l with [] => false | _ => true end
  end.

(** [x or y] *)
Definition or_else (x y : json) : json := if truthy x then x else y.

Fixpoint lookup (k : string) (items : list (string * json)) : option json :=
  match items with
  | [] => None
  | (k', v) :: rest => if String.eqb k k' then Some v else lookup k rest
  end.

(** The value at [k], or [default] when [k] is no key. *)
Definition item_or (k : string) (items : list (string * json)) (default : json) : json :=
  match lookup k items with
  | Some v => v
  | None => default
  end.

(** The keys of a [dict], each once, in insertion order. *)
Fixpoint keys (seen : list string) (items : list (string * json)) : list string :=
  match items with
  | [] => []
  | (k, _) :: rest =>
      if existsb (String.eqb k) seen then keys seen rest
      else k :: keys (k :: seen) rest
  end.

Fixpoint chars (s : string) : list json :=
  match s with
  | EmptyString => []
  | String c s' => JStr (String c EmptyString) :: chars s'
  end.

(** The elements a [for] loop or [list.extend] draws from an object;
    [None] when the object is not iterable ([TypeError]). *)
Definition elements (j : json) : option (list json) :=
  match j with
  | JList l => Some l
  | JStr s => Some (chars s)
  | JDict items => Some (map JStr (keys [] items))
  | JNull | JBool _ | JInt _ => None
  end.

(** [x == s] for a string literal [s]. *)
Definition eq_str (x : json) (s : string) : bool :=
  match x with
  | JStr s' => String.eqb s' s
  | _ => false
  end.

(** [s[:n]] *)
Fixpoint take (n : nat) (s : string) : string :=
  match n, s with
  | S n', String c s' => String c (take n' s')
  | _, _ => EmptyString
  end.

(** [s.replace(old, new)] for a non-empty [old]: the occurrences of [old]
    are replaced from the left, without overlap; [skip] counts the
    characters of an occurrence still to be dropped. *)
Fixpoint replace_from (skip : nat) (old new : string) (s : string) : string :=
  match s with
  | EmptyString => EmptyString
  | String c s' =>
      match skip with
      | S k => replace_from k old new s'
      | O =>
          if String.prefix old s
          then new +:+ replace_from (Nat.pred (String.length old)) old new s'
          else String c (replace_from O old new s')
      end
  end.

Definition replace := replace_from O.

End Py.

(** * The world outside the program *)

(** A request of the program; the headers and the time-out are the same on
    every request and are left out. *)
Inductive request : Type :=
| GetTeams (query : string) (limit : Z)
| GetIncidents (team_id since until : string) (limit offset : Z) (total : string)
| GetLogEntries (incident_id : string) (limit : Z) (is_overview include : string).

(** What [requests.get] gives: a [RequestException] with its message, or a
    response with its status code, its text and the document its text
    decodes to ([None]: the text is not JSON). *)
Inductive response : Type :=
| RequestFailed (msg : string)
| Http (status_code : Z) (text : string) (body : option json).

(** What the program sends to the terminal.  A progress bar is recorded by
    the arguments of [print_progress_bar], not by the characters drawn. *)
Inductive output : Type :=
| Print (line : string)
| Write (text : string)
| ProgressBar (prefix : string) (current total : Z).

Inductive exn : Type :=
| AttributeError | TypeError | JSONDecodeError | OverflowError | OSError | EOFError.

(** How a call ends: it returns, it calls [sys.exit], an exception leaves
    it, or the service has no response left for a request ([Starved]: the
    sequence of responses given does not determine the run). *)
Inductive outcome (A : Type) : Type :=
| Returned (a : A)
| SysExit (code : Z)
| Uncaught (e : exn)
| Starved.
Arguments Returned {A} a.
Arguments SysExit {A} code.
Arguments Uncaught {A} e.
Arguments Starved {A}.

(** * Dates and times *)

(** An aware [datetime.datetime] in UTC, as [datetime.now(timezone.utc)]
    gives it: the proleptic Gregorian ordinal of its date (1 is 0001-01-01)
    and its time of day. *)
Module Datetime.

Record t : Type := {
  ordinal : Z;
  hour : Z;
  minute : Z;
  second : Z;
  microsecond : Z
}.

Definition MAXORDINAL : Z := 3652059.

Definition valid (dt : t) : Prop :=
  1 <= ordinal dt <= MAXORDINAL /\ 0 <= hour dt < 24 /\
  0 <= minute dt < 60 /\ 0 <= second dt < 60 /\ 0 <= microsecond dt < 1000000.

(** The instant as microseconds since 0001-01-01T00:00:00. *)
Definition to_micros (dt : t) : Z :=
  ((((ordinal dt - 1) * 24 + hour dt) * 60 + minute dt) * 60 + second dt) * 1000000
  + microsecond dt.

Definition days_in_month_table : list Z :=
  [31; 28; 31; 30; 31; 30; 31; 31; 30; 31; 30; 31].
Definition days_before_month_table : list Z :=
  [0; 31; 59; 90; 120; 151; 181; 212; 243; 273; 304; 334].

Definition days_in_month (month : Z) : Z :=
  nth (Z.to_nat (month - 1)) days_in_month_table 0.
Definition days_before_month (month : Z) : Z :=
  nth (Z.to_nat (month - 1)) days_before_month_table 0.

Definition b2z (b : bool) : Z := if b then 1 else 0.

(** The library's conversion of an ordinal to year, month and day. *)
Definition ord2ymd (n0 : Z) : Z * Z * Z :=
  let n := n0 - 1 in
  let n400 := n / 146097 in
  let n := n mod 146097 in
  let n100 := n / 36524 in
  let n := n mod 36524 in
  let n4 := n / 1461 in
  let n := n mod 1461 in
  let n1 := n / 365 in
  let n := n mod 365 in
  let year := n400 * 400 + 1 + n100 * 100 + n4 * 4 + n1 in
  if (n1 =? 4) || (n100 =? 4) then (year - 1, 12, 31)
  else
    let leapyear := (n1 =? 3) && (negb (n4 =? 24) || (n100 =? 3)) in
    let month := Z.shiftr (n + 50) 5 in
    let preceding := days_before_month month + b2z ((2 <? month) && leapyear) in
    if n <? preceding
    then
      let month := month - 1 in
      let preceding :=
        preceding - (days_in_month month + b2z ((month =? 2) && leapyear)) in
      (year, month, n - preceding + 1)
    else (year, month, n - preceding + 1).

(** ["%0<width>d" % n] for [0 <= n]. *)
Fixpoint zeros (k : nat) : string :=
  match k with
  | O => EmptyString
  | S k' => String "0" (zeros k')
  end.

Definition zpad (width : nat) (n : Z) : string :=
  let s := PyStr.of_Z n in
  zeros (width - String.length s) +:+ s.

(** [dt.replace(microsecond=0)] *)
Definition replace_microsecond (dt : t) (us : Z) : t :=
  {| ordinal := ordinal dt; hour := hour dt; minute := minute dt;
     second := second dt; microsecond := us |}.

(** [dt.isoformat()]; the offset of UTC is rendered [+00:00]. *)
Definition isoformat (dt : t) : string :=
  let '(y, m, d) := ord2ymd (ordinal dt) in
  zpad 4 y +:+ "-" +:+ zpad 2 m +:+ "-" +:+ zpad 2 d +:+ "T" +:+
  zpad 2 (hour dt) +:+ ":" +:+ zpad 2 (minute dt) +:+ ":" +:+ zpad 2 (second dt) +:+
  (if microsecond dt =? 0 then "" else "." +:+ zpad 6 (microsecond dt)) +:+
  "+00:00".

(** [dt - datetime.timedelta(days=days)]: [None] is [OverflowError],
    raised by [timedelta] beyond 999999999 days and by the subtraction
    when the date leaves the years 1..9999. *)
Definition sub_days (dt : t) (days : Z) : option t :=
  if (days <? -999999999) || (999999999 <? days) then None
  else
    let o := ordinal dt - days in
    if (0 <? o) && (o <=? MAXORDINAL)
    then Some {| ordinal := o; hour := hour dt; minute := minute dt;
                 second := second dt; microsecond := microsecond dt |}
    else None.

End Datetime.

(** [to_iso8601_utc] *)
Definition to_iso8601_utc (dt : Datetime.t) : string :=
  Py.replace "+00:00" "Z" (Datetime.isoformat (Datetime.replace_microsecond dt 0)).

(** A CSV file is the list of the rows written to it; a cell holds the
    object handed to [csv.writer], before it is turned into text. *)
Definition row : Type := list json.

Record world : Type := {
  pending : list response;        (* the responses of the service, in order *)
  sent : list request;            (* the requests issued, oldest first *)
  stdout : list output;           (* the terminal, oldest first *)
  stdin : list string;            (* the lines [input()] will read *)
  clock : Datetime.t;             (* [datetime.now(timezone.utc)] *)
  files : gmap string (list row); (* the CSV files, by path *)
  writable : string -> bool       (* the paths [open(.., "w")] accepts *)
}.

(** * The monad of the program: state and outcome *)

Definition M (A : Type) : Type := world -> outcome A * world.

Definition ret {A} (a : A) : M A := fun w => (Returned a, w).

Definition bind {A B} (m : M A) (f : A -> M B) : M B :=
  fun w =>
    match m w with
    | (Returned a, w') => f a w'
    | (SysExit c, w') => (SysExit c, w')
    | (Uncaught e, w') => (Uncaught e, w')
    | (Starved, w') => (Starved, w')
    end.

Declare Scope py_scope.
Delimit Scope py_scope with py.
Notation "x <- m ;; k" := (bind m (fun x => k))
  (at level 100, m at next level, right associativity) : py_scope.
Notation "m ;; k" := (bind m (fun _ => k))
  (at level 100, right associativity) : py_scope.
Local Open Scope py_scope.

Definition raise {A} (e : exn) : M A := fun w => (Uncaught e, w).
Definition sys_exit {A} (code : Z) : M A := fun w => (SysExit code, w).

Definition set_pending (w : world) (p : list response) : world :=
  {| pending := p; sent := sent w; stdout := stdout w; stdin := stdin w;
     clock := clock w; files := files w; writable := writable w |}.
Definition set_sent (w : world) (s : list request) : world :=
  {| pending := pending w; sent := s; stdout := stdout w; stdin := stdin w;
     clock := clock w; files := files w; writable := writable w |}.
Definition set_stdout (w : world) (o : list output) : world :=
  {| pending := pending w; sent := sent w; stdout := o; stdin := stdin w;
     clock := clock w; files := files w; writable := writable w |}.
Definition set_stdin (w : world) (i : list string) : world :=
  {| pending := pending w; sent := sent w; stdout := stdout w; stdin := i;
     clock := clock w; files := files w; writable := writable w |}.
Definition set_files (w : world) (f : gmap string (list row)) : world :=
  {| pending := pending w; sent := sent w; stdout := stdout w; stdin := stdin w;
     clock := clock w; files := f; writable := writable w |}.

(** [print], [sys.stdout.write] and [print_progress_bar] *)
Definition emit (o : output) : M unit :=
  fun w => (Returned tt, set_stdout w (stdout w ++ [o])).

(** [requests.get]: the request is recorded and the next response of the
    service is taken. *)
Definition requests_get (req : request) : M response :=
  fun w =>
    let w1 := set_sent w (sent w ++ [req]) in
    match pending w with
    | [] => (Starved, w1)
    | r :: rest => (Returned r, set_pending w1 rest)
    end.

(** [response.json()] *)
Definition response_json (r : response) : M json :=
  match r with
  | Http _ _ (Some j) => ret j
  | _ => raise JSONDecodeError
  end.

(** [d.get(k, default)]; an object that is no [dict] has no [get]. *)
Definition get_or (d : json) (k : string) (default : json) : M json :=
  match d with
  | JDict items => ret (Py.item_or k items default)
  | _ => raise AttributeError
  end.

(** [d.get(k)] *)
Definition get (d : json) (k : string) : M json := get_or d k JNull.

(** The elements of [for x in j] and of [l.extend(j)]. *)
Definition iterate (j : json) : M (list json) :=
  match Py.elements j with
  | Some l => ret l
  | None => raise TypeError
  end.

(** [input(prompt)] *)
Definition input (prompt : string) : M string :=
  fun w =>
    let w1 := set_stdout w (stdout w ++ [Write prompt]) in
    match stdin w with
    | [] => (Uncaught EOFError, w1)
    | l :: rest => (Returned l, set_stdin w1 rest)
    end.

(** [datetime.datetime.now(datetime.timezone.utc)] *)
Definition datetime_now : M Datetime.t := fun w => (Returned (clock w), w).

(** [open(filename, mode="w")]: the file is created or emptied. *)
Definition open_w (filename : string) : M unit :=
  fun w =>
    if writable w filename
    then (Returned tt, set_files w (<[filename := []]> (files w)))
    else (Uncaught OSError, w).

(** [writer.writerow(cells)] on the file opened at [filename]. *)
Definition writerow (filename : string) (cells : row) : M unit :=
  fun w =>
    (Returned tt,
     set_files w (<[filename := default [] (files w !! filename) ++ [cells]]> (files w))).

(** * The functions of the source *)

Section Exporter.

(** Two conversions of Python are taken as they are: the text [str()]
    gives for a [list] or a [dict], and the integer [int()] reads from a
    string ([None]: [ValueError]). *)
Variable py_repr : json -> string.
Variable py_int_of_str : string -> option Z.

(** [str(x)] *)
Definition py_str (x : json) : string :=
  match x with
  | JNull => "None"
  | JBool true => "True"
  | JBool false => "False"
  | JInt n => PyStr.of_Z n
  | JStr s => s
  | JList _ | JDict _ => py_repr x
  end.

(** [int(x)] for [x] that is not [None]; [None] stands for the
    [ValueError] or [TypeError] the caller catches. *)
Definition py_int (x : json) : option Z :=
  match x with
  | JInt n => Some n
  | JBool b => Some (if b then 1 else 0)
  | JStr s => py_int_of_str s
  | JNull | JList _ | JDict _ => None
  end.

Definition REQUEST_LIMIT : Z := 100.

(** [sanitize_filename_component] *)
Definition non_alnum (c : ascii) : bool := negb (PyStr.is_alnum c).
Definition is_underscore (c : ascii) : bool := Ascii.eqb c "_".

Definition sanitize_filename_component (name : string) : string :=
  let s := PyStr.strip is_underscore
             (PyStr.re_sub_runs non_alnum "_"
                (PyStr.lower (PyStr.strip PyStr.is_space name))) in
  if PyStr.is_empty s then "team" else s.

(** [is_pagerduty_team_id]: [re.match] of [^[A-Z0-9]{7,}$]; the dollar
    also matches before a line feed that ends the string. *)
Definition is_pagerduty_team_id (value : string) : bool :=
  let rest := PyStr.lstrip PyStr.is_upper_or_digit value in
  (7 <=? Z.of_nat (String.length value) - Z.of_nat (String.length rest))
  && (String.eqb rest "" || String.eqb rest (String "010" "")).

(** [validate_team_id], called on strings only. *)
Definition validate_team_id (team_id : string) : M string :=
  if PyStr.is_empty team_id || negb (is_pagerduty_team_id team_id)
  then emit (Print ("[ERROR]: Resolved team id '" +:+ team_id +:+ "' is invalid."));;
       sys_exit 1
  else ret team_id.

(** The loop of [get_team_id_by_name] over the teams of the response. *)
Fixpoint find_team (team_name : string) (teams : list json) : M string :=
  match teams with
  | [] =>
      emit (Print ("[ERROR]: Team '" +:+ team_name +:+ "' not found."));;
      sys_exit 1
  | team :: rest =>
      name <- get_or team "name" (JStr "");;
      if String.eqb (PyStr.lower (py_str name)) (PyStr.lower team_name)
      then id <- get team "id";;
           validate_team_id (py_str (Py.or_else id (JStr "")))
      else find_team team_name rest
  end.

(** [get_team_id_by_name] *)
Definition get_team_id_by_name (team_name : string) : M string :=
  response <- requests_get (GetTeams team_name 100);;
  match response with
  | RequestFailed e =>
      emit (Print ("[ERROR]: Request to PagerDuty failed while fetching teams: " +:+ e));;
      sys_exit 1
  | Http status_code text _ =>
      if negb (status_code =? 200)
      then emit (Print ("[ERROR]: Failed to retrieve teams: " +:+ text));;
           sys_exit 1
      else
        j <- response_json response;;
        let data := Py.or_else j (JDict []) in
        teams <- get_or data "teams" (JList []);;
        teams <- iterate teams;;
        find_team team_name teams
  end.

(** The variables of the loop of [get_incidents_for_team]. *)
Record fetch_state : Type := {
  incidents : list json;
  offset : Z;
  total_count : option Z;
  fetched_count : Z;
  printed_progress : bool
}.

(** One turn of the loop [while True] of [get_incidents_for_team]; [again]
    is the loop itself, entered for the next turn. *)
Definition fetch_turn (again : fetch_state -> M fetch_state)
           (team_id since until : string) (st : fetch_state) : M fetch_state :=
  response <- requests_get
    (GetIncidents team_id since until REQUEST_LIMIT (offset st) "true");;
  match response with
  | RequestFailed e =>
      emit (Print ("[ERROR]: Request to PagerDuty failed while fetching incidents: " +:+ e));;
      sys_exit 1
  | Http status_code text _ =>
      if negb (status_code =? 200)
      then emit (Print ("[ERROR]: Failed to retrieve incidents: " +:+ text));;
           sys_exit 1
      else
        j <- response_json response;;
        let data := Py.or_else j (JDict []) in
        page <- get_or data "incidents" (JList []);;
        page_incidents <- iterate page;;
        let incidents' := incidents st ++ page_incidents in
        total_count' <- match total_count st with
                        | None => total <- get data "total";; ret (py_int total)
                        | Some n => ret (Some n)
                        end;;
        (* [len(page_incidents)] is the number of elements drawn *)
        let fetched_count' := fetched_count st + Z.of_nat (length page_incidents) in
        let progress := match total_count' with
                        | Some n => negb (n =? 0)
                        | None => false
                        end in
        (if progress
         then emit (ProgressBar "Fetching incidents: " fetched_count'
                      (default 0 total_count'))
         else ret tt);;
        let printed' := printed_progress st || progress in
        more <- get_or data "more" (JBool false);;
        if negb (Py.truthy more)
        then ret {| incidents := incidents'; offset := offset st;
                    total_count := total_count';
                    fetched_count := fetched_count';
                    printed_progress := printed' |}
        else again {| incidents := incidents'; offset := offset st + REQUEST_LIMIT;
                      total_count := total_count';
                      fetched_count := fetched_count';
                      printed_progress := printed' |}
  end.

(** The loop: every turn takes one response, so [fuel] beyond the number
    of pending responses is never used up. *)
Fixpoint fetch_loop (fuel : nat) (team_id since until : string)
         (st : fetch_state) : M fetch_state :=
  match fuel with
  | O => fun w => (Starved, w)
  | S fuel' => fetch_turn (fetch_loop fuel' team_id since until) team_id since until st
  end.

(** [get_incidents_for_team] *)
Definition get_incidents_for_team (team_id since until : string) : M (list json) :=
  validate_team_id team_id;;
  fun w =>
    (st <- fetch_loop (S (length (pending w))) team_id since until
             {| incidents := []; offset := 0; total_count := None;
                fetched_count := 0; printed_progress := false |};;
     (if printed_progress st then emit (Write (String "010" "")) else ret tt);;
     ret (incidents st)) w.

(** What [get_incident_resolve_metadata] returns: a dictionary with the
    one key [resolved_by]. *)
Record resolve_metadata : Type := { resolved_by : option string }.

(** The loop of [get_incident_resolve_metadata] over the log entries. *)
Fixpoint scan_log_entries (entries : list json) : M resolve_metadata :=
  match entries with
  | [] => ret {| resolved_by := None |}
  | entry :: rest =>
      type <- get entry "type";;
      if Py.eq_str type "resolve_log_entry"
      then
        agent <- get entry "agent";;
        let agent := Py.or_else agent (JDict []) in
        summary <- get agent "summary";;
        who <- (if Py.truthy summary then ret summary else get agent "name");;
        channel <- get entry "channel";;
        let channel := Py.or_else channel (JDict []) in
        channel_summary <- get channel "summary";;
        _reason <- (if Py.truthy channel_summary then ret channel_summary
                    else channel_type <- get channel "type";;
                         if Py.truthy channel_type then ret channel_type
                         else get entry "summary");;
        ret {| resolved_by := if Py.truthy who then Some (py_str who) else None |}
      else scan_log_entries rest
  end.

(** [get_incident_resolve_metadata] *)
Definition get_incident_resolve_metadata (incident_id : string) : M resolve_metadata :=
  response <- requests_get (GetLogEntries incident_id 100 "false" "users");;
  match response with
  | RequestFailed _ => ret {| resolved_by := None |}
  | Http status_code _ _ =>
      if negb (status_code =? 200)
      then ret {| resolved_by := None |}
      else
        j <- response_json response;;
        let data := Py.or_else j (JDict []) in
        entries <- get_or data "log_entries" (JList []);;
        entries <- iterate entries;;
        scan_log_entries entries
  end.

Definition csv_headers : row :=
  [JStr "HTML URL"; JStr "Incident Number"; JStr "Title"; JStr "Status";
   JStr "Service Name"; JStr "Created"; JStr "Urgency"; JStr "Resolved By"].

(** The value of [resolved_by] in the loop of [write_incidents_to_csv]. *)
Definition resolved_by_of (inc : json) : M json :=
  status <- get inc "status";;
  if Py.eq_str status "resolved"
  then
    id <- get_or inc "id" (JStr "");;
    meta <- get_incident_resolve_metadata (py_str id);;
    let attributed := match resolved_by meta with
                      | Some s => JStr s
                      | None => JNull
                      end in
    if Py.truthy attributed then ret attributed
    else
      actor <- get inc "last_status_change_by";;
      summary <- get (Py.or_else actor (JDict [])) "summary";;
      ret (Py.or_else summary (JStr "Unknown"))
  else ret (JStr "").

(** The row the loop of [write_incidents_to_csv] writes for one incident. *)
Definition incident_row (inc : json) : M row :=
  service <- get inc "service";;
  let service := Py.or_else service (JDict []) in
  service_summary <- get service "summary";;
  service_name <- (if Py.truthy service_summary then ret service_summary
                   else name <- get service "name";;
                        ret (Py.or_else name (JStr "N/A")));;
  resolved_by <- resolved_by_of inc;;
  html_url <- get_or inc "html_url" (JStr "");;
  incident_number <- get_or inc "incident_number" (JStr "N/A");;
  title <- get_or inc "title" (JStr "N/A");;
  status <- get_or inc "status" (JStr "N/A");;
  created_at <- get_or inc "created_at" (JStr "N/A");;
  urgency <- get_or inc "urgency" (JStr "N/A");;
  ret [html_url; incident_number; title; status; service_name;
       created_at; urgency; resolved_by].

(** The loop of [write_incidents_to_csv]; it returns [printed_progress]. *)
Fixpoint write_rows (filename : string) (total_items : Z) (incidents : list json)
         (processed : Z) (printed_progress : bool) : M bool :=
  match incidents with
  | [] => ret printed_progress
  | inc :: rest =>
      cells <- incident_row inc;;
      writerow filename cells;;
      let processed := processed + 1 in
      if negb (total_items =? 0)
      then emit (ProgressBar "Exporting incidents:" processed total_items);;
           write_rows filename total_items rest processed true
      else write_rows filename total_items rest processed printed_progress
  end.

(** The path [write_incidents_to_csv] writes to. *)
Definition csv_filename (team_name : string) (filename : option string) : string :=
  if PyStr.is_empty (default "" filename)
  then "pagerduty_incidents_" +:+ sanitize_filename_component team_name +:+ ".csv"
  else default "" filename.

(** [write_incidents_to_csv] *)
Definition write_incidents_to_csv (incidents : list json) (team_name : string)
           (filename : option string) : M unit :=
  let filename := csv_filename team_name filename in
  open_w filename;;
  writerow filename csv_headers;;
  let total_items := Z.of_nat (length incidents) in
  printed_progress <- write_rows filename total_items incidents 0 false;;
  (if printed_progress then emit (Write (String "010" "")) else ret tt);;
  emit (Print ("[INFO] " +:+ PyStr.of_Z (Z.of_nat (length incidents))
               +:+ " incidents exported to " +:+ filename)).

(** What [parse_arguments] returns. *)
Record namespace : Type := {
  arg_team_name : option string;
  arg_days : Z;
  arg_output : option string
}.

(** The time window of [main]: [lookback_days], [since] and [until]. *)
Definition time_window (now_utc : Datetime.t) (days : Z) : M (Z * string * string) :=
  let lookback_days := Z.max 1 days in
  match Datetime.sub_days now_utc lookback_days with
  | None => raise OverflowError
  | Some lookback_utc =>
      let since := to_iso8601_utc lookback_utc in
      let until := to_iso8601_utc now_utc in
      ret (lookback_days, since, until)
  end.

(** [main] up to the announcement of the fetch (its lines before the call
    of [get_incidents_for_team]); [token] is the environment variable
    [PAGERDUTY_API_TOKEN].  It returns [team_name], [team_id],
    [lookback_days], [since] and [until]. *)
Definition main_setup (token : option string) (args : namespace)
  : M (string * string * Z * string * string) :=
  if PyStr.is_empty (default "" token)
  then emit (Print "[ERROR]: Please set the PAGERDUTY_API_TOKEN environment variable.");;
       sys_exit 1
  else
    team_name <- (if PyStr.is_empty (default "" (arg_team_name args))
                  then line <- input "Enter the PagerDuty team name: ";;
                       ret (PyStr.strip PyStr.is_space line)
                  else ret (default "" (arg_team_name args)));;
    if PyStr.is_empty team_name
    then emit (Print "[ERROR]: Team name cannot be empty.");;
         sys_exit 1
    else
      team_id <- (if is_pagerduty_team_id team_name then ret team_name
                  else get_team_id_by_name team_name);;
      now_utc <- datetime_now;;
      window <- time_window now_utc (arg_days args);;
      let '(lookback_days, since, until) := window in
      emit (Print ("[INFO]: Fetching incidents for team '" +:+ team_name +:+ "' from "
                   +:+ Py.take 10 since +:+ " to " +:+ Py.take 10 until +:+ " (last "
                   +:+ PyStr.of_Z lookback_days +:+ " days)..."));;
      ret (team_name, team_id, lookback_days, since, until).

(** The end of [main]: what it does with the incidents fetched. *)
Definition main_export (args : namespace) (team_name : string) (lookback_days : Z)
           (incidents : list json) : M unit :=
  match incidents with
  | _ :: _ => write_incidents_to_csv incidents team_name (arg_output args)
  | [] =>
      emit (Print ("[INFO]: No incidents found for team '" +:+ team_name
                   +:+ "' in the last " +:+ PyStr.of_Z lookback_days +:+ " days."))
  end.

(** [main] *)
Definition main (token : option string) (args : namespace) : M unit :=
  setup <- main_setup token args;;
  let '(team_name, team_id, lookback_days, since, until) := setup in
  incidents <- get_incidents_for_team team_id since until;;
  main_export args team_name lookback_days incidents.

End Exporter.

(** * Statements: the definitions the properties are phrased with *)

(** The sanitizer as the specification words it: lower-case, collapse each
    run of non-alphanumeric characters to one separator, trim the
    separators from both ends, fall back to the token [team]. *)
Module SanitizeSpec.

(** A run of characters outside [[A-Za-z0-9]] leaves one underscore, put
    where the run ends. *)
Fixpoint collapse (s : string) : string :=
  match s with
  | EmptyString => EmptyString
  | String c s' =>
      if PyStr.is_alnum c then String c (collapse s')
      else match s' with
           | EmptyString => String "_" EmptyString
           | String c' _ =>
               if PyStr.is_alnum c' then String "_" (collapse s') else collapse s'
           end
  end.

Definition trim (s : string) : string := PyStr.strip is_underscore s.

Definition sanitize (name : string) : string :=
  let s := trim (collapse (PyStr.lower name)) in
  if PyStr.is_empty s then "team" else s.

End SanitizeSpec.

(** What one response means to the loop of [get_incidents_for_team],
    whatever its [total]: a page with its incidents and its [more] flag, a
    fatal exit, or an exception. *)
Definition page_view (r : response) : outcome (list json * bool) :=
  match r with
  | RequestFailed _ => SysExit 1
  | Http status_code _ body =>
      if negb (status_code =? 200) then SysExit 1
      else match body with
           | None => Uncaught JSONDecodeError
           | Some j =>
               match Py.or_else j (JDict []) with
               | JDict items =>
                   match Py.elements (Py.item_or "incidents" items (JList [])) with
                   | Some page =>
                       Returned (page, Py.truthy (Py.item_or "more" items (JBool false)))
                   | None => Uncaught TypeError
                   end
               | _ => Uncaught AttributeError
               end
           end
  end.

(** The requests of [n] pages, from offset [start] on. *)
Definition page_requests (team_id since until : string) (start : Z) (n : nat) : list request :=
  map (fun i => GetIncidents team_id since until 100 (start + 100 * Z.of_nat i) "true") (seq 0 n).



Definition outcome_map {A B} (f : A -> B) (o : outcome A) : outcome B :=
  match o with
  | Returned a => Returned (f a)
  | SysExit c => SysExit c
  | Uncaught e => Uncaught e
  | Starved => Starved
  end.

(** The world once [req] is issued and the first pending response taken. *)
Definition after_request (w : world) (req : request) : world :=
  set_pending (set_sent w (sent w ++ [req])) (tl (pending w)).

Definition log_entries_request (incident_id : string) : request :=
  GetLogEntries incident_id 100 "false" "users".

Definition is_object (j : json) : bool :=
  match j with JDict _ => true | _ => false end.

(** An object, or a value that [x or {}] replaces by an empty object. *)
Definition object_or_falsy (j : json) : bool := is_object (Py.or_else j (JDict [])).

(** The log entries of a success response: the elements of the entry
    [log_entries] of its document. *)
Definition log_entries_of (r : response) : option (list json) :=
  match r with
  | Http status_code _ (Some j) =>
      if status_code =? 200
      then match Py.or_else j (JDict []) with
           | JDict items => Py.elements (Py.item_or "log_entries" items (JList []))
           | _ => None
           end
      else None
  | _ => None
  end.

(** A log entry as the service documents it: an object whose [agent] and
    [channel] are objects, null or absent. *)
Definition entry_well_formed (entry : json) : bool :=
  match entry with
  | JDict items =>
      object_or_falsy (Py.item_or "agent" items JNull)
      && object_or_falsy (Py.item_or "channel" items JNull)
  | _ => false
  end.

Definition entry_is_resolve (entry : json) : bool :=
  match entry with
  | JDict items => Py.eq_str (Py.item_or "type" items JNull) "resolve_log_entry"
  | _ => false
  end.


(** A response the enricher is built for: a failure of the transport, a
    status other than 200, or a success whose document has the documented
    shape. *)
Definition log_response_well_formed (r : response) : bool :=
  match r with
  | RequestFailed _ => true
  | Http status_code _ _ =>
      negb (status_code =? 200)
      || match log_entries_of r with
         | Some entries => forallb entry_well_formed entries
         | None => false
         end
  end.

(** An incident as the exporter reads it: an object whose [service] and
    [last_status_change_by] are objects, null or absent. *)
Definition incident_well_formed (inc : json) : bool :=
  match inc with
  | JDict items =>
      object_or_falsy (Py.item_or "service" items JNull)
      && object_or_falsy (Py.item_or "last_status_change_by" items JNull)
  | _ => false
  end.

Definition incident_is_resolved (inc : json) : bool :=
  match inc with
  | JDict items => Py.eq_str (Py.item_or "status" items JNull) "resolved"
  | _ => false
  end.

Definition incident_id (inc : json) : json :=
  match inc with
  | JDict items => Py.item_or "id" items (JStr "")
  | _ => JNull
  end.

(** The service name of a row: the summary of the service, else its name,
    else the placeholder. *)
Definition service_name_of (items : list (string * json)) : json :=
  match Py.or_else (Py.item_or "service" items JNull) (JDict []) with
  | JDict service =>
      if Py.truthy (Py.item_or "summary" service JNull)
      then Py.item_or "summary" service JNull
      else Py.or_else (Py.item_or "name" service JNull) (JStr "N/A")
  | _ => JStr "N/A"
  end.

(** The first seven cells of the row of an incident. *)
Definition incident_cells (inc : json) : row :=
  match inc with
  | JDict items =>
      [Py.item_or "html_url" items (JStr "");
       Py.item_or "incident_number" items (JStr "N/A");
       Py.item_or "title" items (JStr "N/A");
       Py.item_or "status" items (JStr "N/A");
       service_name_of items;
       Py.item_or "created_at" items (JStr "N/A");
       Py.item_or "urgency" items (JStr "N/A")]
  | _ => []
  end.



(** A row that carries the cells of an incident and one cell more. *)
Definition row_of_incident (inc : json) (cells : row) : Prop :=
  exists resolved_by_cell, cells = incident_cells inc ++ [resolved_by_cell].





(** The text [YYYY-MM-DDTHH:MM:SS] of a date and time, down to the second. *)
Definition iso_seconds (dt : Datetime.t) : string :=
  let '(y, m, d) := Datetime.ord2ymd (Datetime.ordinal dt) in
  Datetime.zpad 4 y +:+ "-" +:+ Datetime.zpad 2 m +:+ "-" +:+ Datetime.zpad 2 d +:+ "T" +:+
  Datetime.zpad 2 (Datetime.hour dt) +:+ ":" +:+ Datetime.zpad 2 (Datetime.minute dt) +:+ ":" +:+
  Datetime.zpad 2 (Datetime.second dt).

(** The characters of such a text: digits, the separators and a sign. *)
Definition iso_char (c : ascii) : bool :=
  PyStr.is_digit c || Ascii.eqb c "-" || Ascii.eqb c "T" || Ascii.eqb c ":".

Definition MICROS_PER_DAY : Z := 86400000000.

(** Reading a timestamp back: the calendar of the library from year, month
    and day to the ordinal, and the text [YYYY-MM-DDTHH:MM:SSZ] read as the
    number of seconds since 0001-01-01T00:00:00Z. *)
Module Iso8601.

Definition is_leap (year : Z) : bool :=
  (year mod 4 =? 0) && (negb (year mod 100 =? 0) || (year mod 400 =? 0)).

Definition days_before_year (year : Z) : Z :=
  let y := year - 1 in y * 365 + y / 4 - y / 100 + y / 400.

Definition ymd2ord (year month day : Z) : Z :=
  days_before_year year
  + (Datetime.days_before_month month + Datetime.b2z ((2 <? month) && is_leap year))
  + day.

Definition digit_value (c : ascii) : option Z :=
  if PyStr.is_digit c then Some (PyStr.code c - 48) else None.

(** Exactly [k] digits at the head of [s]: their value, from [acc] on, and
    what follows them. *)
Fixpoint take_digits (k : nat) (acc : Z) (s : string) : option (Z * string) :=
  match k with
  | O => Some (acc, s)
  | S k' =>
      match s with
      | String c s' =>
          match digit_value c with
          | Some v => take_digits k' (10 * acc + v) s'
          | None => None
          end
      | EmptyString => None
      end
  end.

Definition expect (c : ascii) (s : string) : option string :=
  match s with
  | String c' s' => if Ascii.eqb c c' then Some s' else None
  | EmptyString => None
  end.

Definition seconds_of (ordinal hour minute second : Z) : Z :=
  (((ordinal - 1) * 24 + hour) * 60 + minute) * 60 + second.

Definition parse (s : string) : option Z :=
  match take_digits 4 0 s with
  | Some (year, s) =>
  match expect "-" s with
  | Some s =>
  match take_digits 2 0 s with
  | Some (month, s) =>
  match expect "-" s with
  | Some s =>
  match take_digits 2 0 s with
  | Some (day, s) =>
  match expect "T" s with
  | Some s =>
  match take_digits 2 0 s with
  | Some (hour, s) =>
  match expect ":" s with
  | Some s =>
  match take_digits 2 0 s with
  | Some (minute, s) =>
  match expect ":" s with
  | Some s =>
  match take_digits 2 0 s with
  | Some (second, s) =>
      if String.eqb s "Z"
      then Some (seconds_of (ymd2ord year month day) hour minute second)
      else None
  | None => None end
  | None => None end
  | None => None end
  | None => None end
  | None => None end
  | None => None end
  | None => None end
  | None => None end
  | None => None end
  | None => None end
  | None => None end.

(** The checks run over a whole range of numbers. *)
Fixpoint range (lo : Z) (len : nat) : list Z :=
  match len with
  | O => []
  | S len' => lo :: range (lo + 1) len'
  end.

(** The month and the day the conversion finds for the day [n] of a year,
    counted from 0. *)
Definition month_and_day (leapyear : bool) (n : Z) : Z * Z :=
  let month := Z.shiftr (n + 50) 5 in
  let preceding := Datetime.days_before_month month
                   + Datetime.b2z ((2 <? month) && leapyear) in
  if n <? preceding
  then
    let month := month - 1 in
    let preceding :=
      preceding - (Datetime.days_in_month month + Datetime.b2z ((month =? 2) && leapyear)) in
    (month, n - preceding + 1)
  else (month, n - preceding + 1).

(** Month and day are in range and count back to the day of the year. *)
Definition month_day_ok (leapyear : bool) (n : Z) : bool :=
  let '(m, d) := month_and_day leapyear n in
  (1 <=? m) && (m <=? 12) && (1 <=? d) && (d <=? 31)
  && (Datetime.days_before_month m + Datetime.b2z ((2 <? m) && leapyear) + d =? n + 1).

(** The year [q + 1] of the first cycle of 400 years, by the centuries,
    the four-year spans and the years that make [q]: the days before it
    and whether it is a leap year. *)
Definition year_ok (q : Z) : bool :=
  let n100 := q / 100 in
  let n4 := (q mod 100) / 4 in
  let n1 := q mod 4 in
  (days_before_year (q + 1) =? 36524 * n100 + 1461 * n4 + 365 * n1)
  && Bool.eqb (is_leap (q + 1)) ((n1 =? 3) && (negb (n4 =? 24) || (n100 =? 3))).

(** A number below [10 ^ width] is rendered on [width] digits that read
    back as the number. *)
Definition zpad_ok (width : nat) (n : Z) : bool :=
  match take_digits width 0 (Datetime.zpad width n) with
  | Some (v, EmptyString) => v =? n
  | _ => false
  end.

End Iso8601.

(** * Sample data: a small service and the worlds around it *)

Module Sample.

Definition repr : json -> string := fun _ => "<object>".
Definition int_of_str : string -> option Z := fun _ => None.

(** 2024-01-01T09:05:07.123456 UTC *)
Definition now : Datetime.t :=
  {| Datetime.ordinal := 738886; Datetime.hour := 9; Datetime.minute := 5;
     Datetime.second := 7; Datetime.microsecond := 123456 |}.

Definition world_of (responses : list response) : world :=
  {| pending := responses; sent := []; stdout := []; stdin := [];
     clock := now; files := ∅; writable := fun _ => true |}.

Definition resolved_incident : json :=
  JDict [("id", JStr "Q1"); ("incident_number", JInt 41); ("title", JStr "db down");
         ("status", JStr "resolved"); ("service", JDict [("summary", JStr "DB")]);
         ("last_status_change_by", JDict [("summary", JStr "Bo")])].

Definition open_incident : json :=
  JDict [("id", JStr "Q2"); ("incident_number", JInt 42); ("status", JStr "triggered")].

Definition ok (j : json) : response := Http 200 "" (Some j).

Definition first_page (total : json) : response :=
  ok (JDict [("incidents", JList [resolved_incident]); ("more", JBool true);
             ("total", total)]).
Definition last_page : response :=
  ok (JDict [("incidents", JList [open_incident]); ("more", JBool false)]).
Definition empty_page : response := ok (JDict [("incidents", JList [])]).

Definition teams_page : response :=
  ok (JDict [("teams", JList [JDict [("id", JStr "PABC123"); ("name", JStr "Observability")]])]).


Definition log_resolved_by_ann : response :=
  ok (JDict [("log_entries",
              JList [JDict [("type", JStr "notify_log_entry")];
                     JDict [("type", JStr "resolve_log_entry");
                            ("agent", JDict [("summary", JStr "Ann")])]])]).

(** A success status with a body that is no JSON document. *)
Definition html_page : response := Http 200 "<html>Bad gateway</html>" None.

Definition args (days : Z) : namespace :=
  {| arg_team_name := Some "Observability"; arg_days := days; arg_output := None |}.

End Sample.

(** * Further statements *)

(** The characters a sanitized name is made of: [a-z], [0-9] and the
    underscore. *)
Definition filename_char (c : ascii) : bool :=
  PyStr.is_lower c || PyStr.is_digit c || is_underscore c.

(** The characters of the default path: those of a sanitized name and the
    dot. *)
Definition path_char (c : ascii) : bool := filename_char c || Ascii.eqb c ".".

(** No two underscores in a row. *)
Fixpoint no_double_underscore (s : string) : bool :=
  match s with
  | EmptyString => true
  | String c s' =>
      match s' with
      | EmptyString => true
      | String c' _ => negb (is_underscore c && is_underscore c')
      end && no_double_underscore s'
  end.

Definition starts_with_underscore (s : string) : bool :=
  match s with
  | String c _ => is_underscore c
  | EmptyString => false
  end.

(** A name in the form the sanitizer gives: not empty, made of [a-z0-9_],
    no underscore at either end and no two in a row. *)
Definition sanitized (s : string) : bool :=
  negb (PyStr.is_empty s) && PyStr.all_chars filename_char s
  && String.eqb (PyStr.strip is_underscore s) s && no_double_underscore s.


Definition is_sys_exit {A} (o : outcome A) : bool :=
  match o with SysExit _ => true | _ => false end.

(** A computation that leaves every file as it is. *)
Definition keeps_files {A} (m : M A) : Prop :=
  forall w, files (snd (m w)) = files w.

(** A computation that leaves every file but the one at [path] as it is. *)
Definition writes_only {A} (path : string) (m : M A) : Prop :=
  forall w other, other <> path -> files (snd (m w)) !! other = files w !! other.

(** The requests of the exporter: one for each resolved incident, in the
    order of the incidents. *)
Definition enrichment_requests (py_repr : json -> string) (incidents : list json)
  : list request :=
  map (fun inc => log_entries_request (py_str py_repr (incident_id inc)))
      (List.filter incident_is_resolved incidents).

(** The text [YYYY-MM-DD] of the calendar date of a datetime. *)
Definition iso_date (dt : Datetime.t) : string :=
  let '(y, m, d) := Datetime.ord2ymd (Datetime.ordinal dt) in
  Datetime.zpad 4 y +:+ "-" +:+ Datetime.zpad 2 m +:+ "-" +:+ Datetime.zpad 2 d.

(** The message [main] prints before the fetch. *)
Definition fetch_announcement (team_name : string) (lookback_days : Z) (since until : string)
  : output :=
  Print ("[INFO]: Fetching incidents for team '" +:+ team_name +:+ "' from "
         +:+ Py.take 10 since +:+ " to " +:+ Py.take 10 until +:+ " (last "
         +:+ PyStr.of_Z lookback_days +:+ " days)...").

(** The team name of [main]: the argument, or else the line typed at the
    prompt, stripped. *)
Definition read_team_name (args : namespace) : M string :=
  if PyStr.is_empty (default "" (arg_team_name args))
  then bind (input "Enter the PagerDuty team name: ")
         (fun line => ret (PyStr.strip PyStr.is_space line))
  else ret (default "" (arg_team_name args)).

(** More sample data. *)
Module MoreSample.

(** A world where no path can be opened for writing. *)
Definition read_only_world : world :=
  {| pending := []; sent := []; stdout := []; stdin := [];
     clock := Sample.now; files := ∅; writable := fun _ => false |}.

(** A world with lines waiting on the standard input. *)
Definition typed_world (lines : list string) (responses : list response) : world :=
  {| pending := responses; sent := []; stdout := []; stdin := lines;
     clock := Sample.now; files := ∅; writable := fun _ => true |}.

(** The same second as [Sample.now], at its last microsecond. *)
Definition now_later : Datetime.t :=
  {| Datetime.ordinal := 738886; Datetime.hour := 9; Datetime.minute := 5;
     Datetime.second := 7; Datetime.microsecond := 999999 |}.


Definition args_unnamed : namespace :=
  {| arg_team_name := None; arg_days := 7; arg_output := None |}.
Definition args_by_id : namespace :=
  {| arg_team_name := Some "PABC123"; arg_days := 7; arg_output := None |}.

End MoreSample.

(** * Properties *)

(** ** Strings *)

Lemma space_is_non_alnum c : PyStr.is_space c = true -> non_alnum (PyStr.lower_char c) = true.
Proof.
  destruct c as [[] [] [] [] [] [] [] []]; vm_compute; congruence.
Qed.

Lemma rstrip_cons p c s :
  PyStr.rstrip p (String c s) =
  if PyStr.is_empty (PyStr.rstrip p s) && p c then EmptyString
  else String c (PyStr.rstrip p s).
Proof. reflexivity. Qed.

Lemma strip_commutes p s :
  PyStr.rstrip p (PyStr.lstrip p s) = PyStr.lstrip p (PyStr.rstrip p s).
Proof.
  induction s as [|c s IH]; [reflexivity|].
  rewrite rstrip_cons. cbn [PyStr.lstrip].
  destruct (p c) eqn:Hc.
  - rewrite IH. destruct (PyStr.rstrip p s) eqn:Hr; cbn [PyStr.is_empty andb PyStr.lstrip].
    + reflexivity.
    + rewrite Hc. reflexivity.
  - rewrite andb_false_r. rewrite rstrip_cons, Hc, andb_false_r.
    cbn [PyStr.lstrip]. rewrite Hc. reflexivity.
Qed.

Lemma collapse_cons c s :
  SanitizeSpec.collapse (String c s) =
  if PyStr.is_alnum c then String c (SanitizeSpec.collapse s)
  else match s with
       | EmptyString => String "_" EmptyString
       | String c' _ =>
           if PyStr.is_alnum c' then String "_" (SanitizeSpec.collapse s)
           else SanitizeSpec.collapse s
       end.
Proof. reflexivity. Qed.

Lemma re_sub_runs_collapse s :
  PyStr.re_sub_runs_from false non_alnum "_" s = SanitizeSpec.collapse s
  /\ (forall c, non_alnum c = true ->
        SanitizeSpec.collapse (String c s)
        = String "_" (PyStr.re_sub_runs_from true non_alnum "_" s)).
Proof.
  induction s as [|c' s [IH1 IH2]].
  - split; [reflexivity|]. intros c Hc. cbn.
    unfold non_alnum in Hc. apply negb_true_iff in Hc. rewrite Hc. reflexivity.
  - assert (Hhead : PyStr.re_sub_runs_from false non_alnum "_" (String c' s)
                    = SanitizeSpec.collapse (String c' s)).
    { cbn [PyStr.re_sub_runs_from]. destruct (non_alnum c') eqn:Hc.
      - rewrite (IH2 c' Hc). reflexivity.
      - unfold non_alnum in Hc. apply negb_false_iff in Hc.
        rewrite collapse_cons, Hc, IH1. reflexivity. }
    split; [exact Hhead|].
    intros c Hc. rewrite collapse_cons.
    pose proof Hc as Hc'. unfold non_alnum in Hc'. apply negb_true_iff in Hc'.
    rewrite Hc'. cbn [PyStr.re_sub_runs_from].
    destruct (PyStr.is_alnum c') eqn:Hc2.
    + unfold non_alnum at 1. rewrite Hc2. cbn [negb].
      rewrite collapse_cons, Hc2, IH1. reflexivity.
    + assert (Hn : non_alnum c' = true) by (unfold non_alnum; rewrite Hc2; reflexivity).
      rewrite Hn. apply (IH2 c' Hn).
Qed.

Lemma append_char c x : String c EmptyString +:+ x = String c x.
Proof. reflexivity. Qed.

(** A run already open does not change what is left once the leading
    separators are dropped. *)
Lemma lstrip_re_sub_open s :
  PyStr.lstrip is_underscore (PyStr.re_sub_runs_from true non_alnum "_" s)
  = PyStr.lstrip is_underscore (PyStr.re_sub_runs_from false non_alnum "_" s).
Proof.
  destruct s as [|c s]; [reflexivity|].
  cbn [PyStr.re_sub_runs_from]. destruct (non_alnum c); reflexivity.
Qed.

Lemma lstrip_space_redundant s :
  PyStr.lstrip is_underscore
    (PyStr.re_sub_runs_from false non_alnum "_" (PyStr.lower (PyStr.lstrip PyStr.is_space s)))
  = PyStr.lstrip is_underscore
      (PyStr.re_sub_runs_from false non_alnum "_" (PyStr.lower s)).
Proof.
  induction s as [|c s IH]; [reflexivity|].
  cbn [PyStr.lstrip]. destruct (PyStr.is_space c) eqn:Hc; [|reflexivity].
  rewrite IH. cbn [PyStr.lower PyStr.re_sub_runs_from].
  rewrite (space_is_non_alnum c Hc).
  rewrite append_char. cbn [PyStr.lstrip].
  change (is_underscore "_") with true. cbn iota.
  symmetry. apply lstrip_re_sub_open.
Qed.

Lemma rstrip_space_redundant s : forall b,
  PyStr.rstrip is_underscore
    (PyStr.re_sub_runs_from b non_alnum "_" (PyStr.lower (PyStr.rstrip PyStr.is_space s)))
  = PyStr.rstrip is_underscore
      (PyStr.re_sub_runs_from b non_alnum "_" (PyStr.lower s)).
Proof.
  induction s as [|c s IH]; intros b; [reflexivity|].
  rewrite rstrip_cons.
  destruct (PyStr.is_empty (PyStr.rstrip PyStr.is_space s) && PyStr.is_space c) eqn:E.
  - apply andb_true_iff in E as [E1 E2].
    destruct (PyStr.rstrip PyStr.is_space s) eqn:Hr; [|discriminate].
    cbn [PyStr.lower PyStr.re_sub_runs_from]. rewrite (space_is_non_alnum c E2).
    pose proof (IH true) as IHt. cbn [PyStr.lower PyStr.re_sub_runs_from PyStr.rstrip] in IHt.
    destruct b.
    + rewrite <- IHt. reflexivity.
    + rewrite append_char, rstrip_cons, <- IHt. reflexivity.
  - clear E. cbn [PyStr.lower PyStr.re_sub_runs_from].
    destruct (non_alnum (PyStr.lower_char c)).
    + destruct b.
      * apply IH.
      * rewrite !append_char, !rstrip_cons, IH. reflexivity.
    + rewrite !rstrip_cons, IH. reflexivity.
Qed.

Lemma sanitize_refines_spec name :
  sanitize_filename_component name = SanitizeSpec.sanitize name.
Proof.
  unfold sanitize_filename_component, SanitizeSpec.sanitize, SanitizeSpec.trim.
  assert (E : PyStr.strip is_underscore
                (PyStr.re_sub_runs non_alnum "_"
                   (PyStr.lower (PyStr.strip PyStr.is_space name)))
              = PyStr.strip is_underscore (SanitizeSpec.collapse (PyStr.lower name))).
  { rewrite <- (proj1 (re_sub_runs_collapse (PyStr.lower name))).
    unfold PyStr.strip, PyStr.re_sub_runs.
    rewrite strip_commutes, rstrip_space_redundant, <- strip_commutes.
    rewrite lstrip_space_redundant. reflexivity. }
  rewrite E. reflexivity.
Qed.

(** C5. For every input string, [sanitize_filename_component] lower-cases
    it, collapses each run of non-alphanumeric characters to a single
    underscore, trims the underscores from both ends and returns the token
    [team] when nothing is left; so ["Platform SRE!!"] gives
    ["platform_sre"], a string of spaces gives ["team"] and ["Team-42"]
    gives ["team_42"]. *)
Theorem sanitize_filename_component_spec :
  (forall name, sanitize_filename_component name = SanitizeSpec.sanitize name)
  /\ sanitize_filename_component "Platform SRE!!" = "platform_sre"
  /\ sanitize_filename_component "   " = "team"
  /\ sanitize_filename_component "Team-42" = "team_42".
Proof.
  split; [exact sanitize_refines_spec|].
  repeat split; reflexivity.
Qed.

(** ** The paginated fetcher *)

Section FetchProperties.

Variable py_int_of_str : string -> option Z.
Variables team_id since until : string.

Local Abbreviation loop := (fetch_loop py_int_of_str).
Local Abbreviation request_at o := (GetIncidents team_id since until 100 o "true").

(** One turn of the loop, read off the view of the response taken. *)
Lemma fetch_loop_turn fuel st w r rest :
  pending w = r :: rest ->
  exists w',
    match page_view r with
    | Returned (page, more) =>
        exists tc fc pp,
          loop (S fuel) team_id since until st w =
          if more
          then loop fuel team_id since until
                 {| incidents := incidents st ++ page; offset := offset st + 100;
                    total_count := tc; fetched_count := fc; printed_progress := pp |} w'
          else (Returned {| incidents := incidents st ++ page; offset := offset st;
                            total_count := tc; fetched_count := fc;
                            printed_progress := pp |}, w')
    | SysExit c => loop (S fuel) team_id since until st w = (SysExit c, w')
    | Uncaught e => loop (S fuel) team_id since until st w = (Uncaught e, w')
    | Starved => False
    end
    /\ pending w' = rest /\ sent w' = sent w ++ [request_at (offset st)]
    /\ files w' = files w.
Proof.
  intros Hp.
  remember (loop (S fuel) team_id since until st w) as L eqn:HL.
  cbn [fetch_loop] in HL. unfold fetch_turn, bind, requests_get in HL. rewrite Hp in HL.
  destruct r as [msg | status text body]; cbn [page_view].
  - cbn in HL. eexists; split; [subst L; reflexivity | repeat split].
  - destruct (negb (status =? 200)) eqn:Hs.
    + cbn in HL. eexists; split; [subst L; reflexivity | repeat split].
    + destruct body as [j|]; cbn [response_json] in HL.
      2:{ cbn in HL. eexists; split; [subst L; reflexivity | repeat split]. }
      cbn [ret] in HL.
      destruct (Py.or_else j (JDict [])) as [| | | | |items] eqn:Hd;
        try (cbn in HL; eexists; split; [subst L; reflexivity | repeat split]; fail).
      cbn [get_or ret] in HL. unfold iterate in HL.
      destruct (Py.elements (Py.item_or "incidents" items (JList []))) as [page|] eqn:He.
      2:{ cbn in HL. eexists; split; [subst L; reflexivity | repeat split]. }
      cbn [ret] in HL.
      destruct (total_count st) as [n|] eqn:Ht; cbn in HL;
        [ destruct (negb (n =? 0))
        | destruct (py_int py_int_of_str (Py.item_or "total" items JNull)) as [n|];
          [ destruct (negb (n =? 0)) | ] ];
        cbn in HL;
        destruct (Py.truthy (Py.item_or "more" items (JBool false)));
        cbn in HL;
        (eexists; split; [eexists _, _, _; subst L; reflexivity | repeat split]).
Qed.

Lemma fetch_loop_starved fuel st w :
  pending w = [] ->
  loop (S fuel) team_id since until st w
  = (Starved, set_sent w (sent w ++ [request_at (offset st)])).
Proof.
  intros Hp. cbn [fetch_loop]. unfold fetch_turn, bind, requests_get. rewrite Hp. reflexivity.
Qed.

(** A turn enters the loop again only with fewer responses pending. *)
Lemma fetch_turn_ext (again again' : fetch_state -> M fetch_state) st w :
  (forall st' w', (length (pending w') < length (pending w))%nat ->
                  again st' w' = again' st' w') ->
  fetch_turn py_int_of_str again team_id since until st w
  = fetch_turn py_int_of_str again' team_id since until st w.
Proof.
  intros Hext. unfold fetch_turn, bind, requests_get.
  destruct (pending w) as [|r rs] eqn:Hp; [reflexivity|].
  destruct r as [msg | status text [j|]]; try reflexivity;
    destruct (negb (status =? 200)); try reflexivity.
  cbn [response_json ret].
  destruct (Py.or_else j (JDict [])) as [| | | | |items]; try reflexivity.
  cbn [get_or ret]. unfold iterate.
  destruct (Py.elements (Py.item_or "incidents" items (JList []))) as [page|];
    [|reflexivity].
  cbn [ret].
  destruct (total_count st) as [n|]; cbn [get get_or ret];
    [ destruct (negb (n =? 0))
    | destruct (py_int py_int_of_str (Py.item_or "total" items JNull)) as [n|];
      [ destruct (negb (n =? 0)) | ] ];
    cbn [emit ret];
    destruct (negb (Py.truthy (Py.item_or "more" items (JBool false))));
    try reflexivity;
    apply Hext; cbn [pending set_pending set_sent set_stdout length]; lia.
Qed.

(** Fuel beyond the number of pending responses is never used up: the
    loop does not depend on how much more there is. *)
Lemma fetch_loop_fuel fuel :
  forall fuel' st w,
    (length (pending w) < fuel)%nat -> (length (pending w) < fuel')%nat ->
    loop fuel team_id since until st w = loop fuel' team_id since until st w.
Proof.
  induction fuel as [|fuel IH]; intros fuel' st w Hf Hf'; [lia|].
  destruct fuel' as [|fuel']; [lia|].
  cbn [fetch_loop]. apply fetch_turn_ext.
  intros st' w' Hlt. apply IH; lia.
Qed.

Lemma page_requests_succ start n :
  GetIncidents team_id since until 100 start "true"
    :: page_requests team_id since until (start + 100) n
  = page_requests team_id since until start (S n).
Proof.
  unfold page_requests. cbn [seq map]. f_equal.
  - f_equal. lia.
  - rewrite <- seq_shift, map_map. apply map_ext. intros i. f_equal. lia.
Qed.


Lemma validate_team_id_ok w :
  is_pagerduty_team_id team_id = true ->
  validate_team_id team_id w = (Returned team_id, w).
Proof.
  intros Hid. unfold validate_team_id. rewrite Hid.
  destruct team_id; [discriminate Hid | reflexivity].
Qed.

Lemma validate_team_id_bad w :
  is_pagerduty_team_id team_id = false ->
  exists w', validate_team_id team_id w = (SysExit 1, w')
             /\ sent w' = sent w /\ files w' = files w /\ pending w' = pending w.
Proof.
  intros Hid. unfold validate_team_id. rewrite Hid, orb_true_r.
  eexists. split; [reflexivity|]. repeat split.
Qed.

(** The [more] flag of a page is the truth value of the entry [more] of
    the document: [false] for the value [false] and when there is no such
    entry. *)
Lemma page_view_more_flag text items page more :
  page_view (Http 200 text (Some (JDict items))) = Returned (page, more) ->
  more = match Py.lookup "more" items with
         | Some (JBool b) => b
         | Some v => Py.truthy v
         | None => false
         end.
Proof.
  cbn [page_view Z.eqb Pos.eqb negb]. unfold Py.or_else.
  assert (E : (if Py.truthy (JDict items) then JDict items else JDict []) = JDict items)
    by (destruct items; reflexivity).
  rewrite E.
  destruct (Py.elements (Py.item_or "incidents" items (JList []))); [|discriminate].
  intros H. injection H as _ <-. unfold Py.item_or.
  destruct (Py.lookup "more" items) as [[]|]; reflexivity.
Qed.


(** *** The [total] of a page is display only *)




(** [get_incidents_for_team] on a well-formed identifier, by the result
    of its loop. *)
Lemma get_incidents_by_loop w o v :
  is_pagerduty_team_id team_id = true ->
  loop (S (length (pending w))) team_id since until
    {| incidents := []; offset := 0; total_count := None;
       fetched_count := 0; printed_progress := false |} w = (o, v) ->
  exists v',
    get_incidents_for_team py_int_of_str team_id since until w
    = (outcome_map incidents o, v')
    /\ sent v' = sent v /\ files v' = files v /\ pending v' = pending v.
Proof.
  intros Hid Hrun. unfold get_incidents_for_team. unfold bind at 1.
  rewrite (validate_team_id_ok w Hid). unfold bind at 1. rewrite Hrun.
  destruct o as [st | c | e |]; cbn [outcome_map];
    try (eexists; split; [reflexivity | repeat split]; fail).
  destruct (printed_progress st); unfold bind, emit, ret;
    (eexists; split; [reflexivity | repeat split]).
Qed.

Lemma get_incidents_bad_id w :
  is_pagerduty_team_id team_id = false ->
  exists v,
    get_incidents_for_team py_int_of_str team_id since until w = (SysExit 1, v)
    /\ sent v = sent w /\ files v = files w /\ pending v = pending w.
Proof.
  intros Hid. destruct (validate_team_id_bad w Hid) as (u & Hu & Hrest).
  unfold get_incidents_for_team. unfold bind at 1. rewrite Hu.
  exists u. split; [reflexivity | exact Hrest].
Qed.



(** The fetcher leaves the files alone. *)
Lemma fetch_loop_files fuel :
  forall st w, files (snd (loop fuel team_id since until st w)) = files w.
Proof.
  induction fuel as [|fuel IH]; intros st w; [reflexivity|].
  destruct (pending w) as [|r rs] eqn:Hp.
  - rewrite (fetch_loop_starved fuel st w Hp). reflexivity.
  - destruct (fetch_loop_turn fuel st w r rs Hp) as (w1 & Hrun & _ & _ & Hfiles).
    destruct (page_view r) as [[page more] | c | e |].
    + destruct Hrun as (tc & fc & pp & Hrun). rewrite Hrun.
      destruct more; [rewrite IH|]; exact Hfiles.
    + rewrite Hrun. exact Hfiles.
    + rewrite Hrun. exact Hfiles.
    + destruct Hrun.
Qed.

Lemma get_incidents_files w :
  files (snd (get_incidents_for_team py_int_of_str team_id since until w)) = files w.
Proof.
  destruct (is_pagerduty_team_id team_id) eqn:Hid.
  - destruct (loop (S (length (pending w))) team_id since until
                {| incidents := []; offset := 0; total_count := None;
                   fetched_count := 0; printed_progress := false |} w) as [o v] eqn:Hrun.
    destruct (get_incidents_by_loop w o v Hid Hrun) as (v' & Hv & _ & Hf & _).
    rewrite Hv. cbn [snd]. rewrite Hf.
    change v with (snd (o, v)). rewrite <- Hrun. apply fetch_loop_files.
  - destruct (get_incidents_bad_id w Hid) as (v & Hv & _ & Hf & _).
    rewrite Hv. exact Hf.
Qed.

End FetchProperties.

(** ** The team resolver *)

Section ResolveProperties.

Variable py_repr : json -> string.




End ResolveProperties.

(** ** The resolution enricher *)

Section EnrichProperties.

Variable py_repr : json -> string.

Local Abbreviation scan := (scan_log_entries py_repr).
Local Abbreviation enrich := (get_incident_resolve_metadata py_repr).
Local Abbreviation absent := {| resolved_by := None |}.

Lemma object_or_falsy_dict j :
  object_or_falsy j = true -> exists items, Py.or_else j (JDict []) = JDict items.
Proof.
  unfold object_or_falsy. destruct (Py.or_else j (JDict [])); try discriminate.
  intros _. eexists. reflexivity.
Qed.

(** The scan of one well-formed entry never raises: it gives an
    attribution when the entry is a resolve event and moves on
    otherwise. *)
Lemma scan_cons entry rest w :
  entry_well_formed entry = true ->
  scan (entry :: rest) w =
  if entry_is_resolve entry
  then match entry with
       | JDict items =>
           match Py.or_else (Py.item_or "agent" items JNull) (JDict []) with
           | JDict agent =>
               let who := if Py.truthy (Py.item_or "summary" agent JNull)
                          then Py.item_or "summary" agent JNull
                          else Py.item_or "name" agent JNull in
               (Returned {| resolved_by := if Py.truthy who then Some (py_str py_repr who)
                                           else None |}, w)
           | _ => (Returned absent, w)
           end
       | _ => (Returned absent, w)
       end
  else scan rest w.
Proof.
  destruct entry as [| | | | |items]; try discriminate.
  cbn [entry_well_formed entry_is_resolve]. intros Hwf.
  apply andb_true_iff in Hwf as [Ha Hc].
  destruct (object_or_falsy_dict _ Ha) as (agent & Hagent).
  destruct (object_or_falsy_dict _ Hc) as (channel & Hchannel).
  cbn [scan_log_entries]. unfold bind at 1. cbn [get get_or ret].
  destruct (Py.eq_str (Py.item_or "type" items JNull) "resolve_log_entry"); [|reflexivity].
  unfold bind at 1. cbn [get get_or ret]. rewrite Hagent.
  unfold bind at 1. cbn [get get_or ret].
  destruct (Py.truthy (Py.item_or "summary" agent JNull)) eqn:Hs;
    unfold bind, get, get_or, ret; rewrite Hchannel; cbn beta iota;
    destruct (Py.truthy (Py.item_or "summary" channel JNull));
    try destruct (Py.truthy (Py.item_or "type" channel JNull));
    cbn beta iota; rewrite ?Hs; reflexivity.
Qed.


Lemma scan_total entries w :
  forallb entry_well_formed entries = true ->
  exists meta, scan entries w = (Returned meta, w).
Proof.
  induction entries as [|e entries IH]; [eexists; reflexivity|].
  cbn [forallb]. intros Hwf. apply andb_true_iff in Hwf as [He Hwf].
  rewrite (scan_cons e entries w He).
  destruct (entry_is_resolve e); [|apply IH; assumption].
  destruct e as [| | | | |items]; try (eexists; reflexivity).
  destruct (Py.or_else (Py.item_or "agent" items JNull) (JDict []));
    eexists; reflexivity.
Qed.


(** The enricher by the response it takes. *)
Lemma enrich_failed id w msg rest :
  pending w = RequestFailed msg :: rest ->
  enrich id w = (Returned absent, after_request w (log_entries_request id)).
Proof.
  intros Hp. unfold get_incident_resolve_metadata, bind, requests_get, after_request.
  rewrite Hp. reflexivity.
Qed.

Lemma enrich_status id w status text body rest :
  pending w = Http status text body :: rest ->
  status <> 200 ->
  enrich id w = (Returned absent, after_request w (log_entries_request id)).
Proof.
  intros Hp Hs. unfold get_incident_resolve_metadata, bind, requests_get, after_request.
  rewrite Hp. apply Z.eqb_neq in Hs. rewrite Hs. reflexivity.
Qed.

Lemma enrich_entries id w r rest entries :
  pending w = r :: rest ->
  log_entries_of r = Some entries ->
  enrich id w = scan entries (after_request w (log_entries_request id)).
Proof.
  intros Hp He. unfold get_incident_resolve_metadata, after_request.
  unfold bind at 1. unfold requests_get. rewrite Hp. cbn [tl].
  destruct r as [msg | status text [j|]]; try discriminate He.
  cbn [log_entries_of] in He. destruct (status =? 200); [|discriminate He].
  cbn [negb response_json]. unfold bind at 1. cbn [ret].
  destruct (Py.or_else j (JDict [])) as [| | | | |items]; try discriminate He.
  unfold bind at 1. cbn [get_or ret]. unfold bind at 1, iterate. rewrite He.
  reflexivity.
Qed.

Lemma enrich_total id w r rest :
  pending w = r :: rest ->
  log_response_well_formed r = true ->
  exists meta,
    enrich id w = (Returned meta, after_request w (log_entries_request id)).
Proof.
  intros Hp Hwf. destruct r as [msg | status text body].
  - exists absent. apply (enrich_failed id w msg rest Hp).
  - cbn [log_response_well_formed] in Hwf. apply orb_true_iff in Hwf as [Hs | He].
    + exists absent. apply (enrich_status id w status text body rest Hp).
      apply negb_true_iff in Hs. apply Z.eqb_neq. exact Hs.
    + destruct (log_entries_of (Http status text body)) as [entries|] eqn:Hl; [|discriminate].
      rewrite (enrich_entries id w _ rest entries Hp Hl). apply scan_total. exact He.
Qed.


End EnrichProperties.

(** ** The tabular exporter *)

Section ExportProperties.

Variable py_repr : json -> string.

Local Abbreviation enrich := (get_incident_resolve_metadata py_repr).



(** On a well-formed incident the row is written whenever the enricher,
    if it is called, takes a well-formed response. *)
Lemma incident_row_unresolved inc w :
  incident_well_formed inc = true ->
  incident_is_resolved inc = false ->
  incident_row py_repr inc w = (Returned (incident_cells inc ++ [JStr ""]), w).
Proof.
  destruct inc as [| | | | |items]; try discriminate.
  cbn [incident_well_formed incident_is_resolved incident_cells]. intros Hwf Hres.
  apply andb_true_iff in Hwf as [Hs _]. unfold object_or_falsy in Hs.
  unfold incident_row, service_name_of, resolved_by_of.
  unfold bind at 1. cbn [get get_or ret].
  destruct (Py.or_else (Py.item_or "service" items JNull) (JDict [])) as [| | | | |service];
    try discriminate Hs.
  unfold bind at 1. cbn [get get_or ret].
  destruct (Py.truthy (Py.item_or "summary" service JNull));
    unfold bind; cbn [get get_or ret]; rewrite Hres; reflexivity.
Qed.

Lemma incident_row_resolved inc w r rest :
  incident_well_formed inc = true ->
  incident_is_resolved inc = true ->
  pending w = r :: rest ->
  log_response_well_formed r = true ->
  exists cell,
    incident_row py_repr inc w
    = (Returned (incident_cells inc ++ [cell]),
       after_request w (log_entries_request (py_str py_repr (incident_id inc)))).
Proof.
  destruct inc as [| | | | |items]; try discriminate.
  cbn [incident_well_formed incident_is_resolved incident_cells incident_id].
  intros Hwf Hres Hp Hr.
  apply andb_true_iff in Hwf as [Hs Ha]. unfold object_or_falsy in Hs, Ha.
  destruct (enrich_total py_repr (py_str py_repr (Py.item_or "id" items (JStr ""))) w r rest Hp Hr)
    as (meta & Hmeta).
  unfold incident_row, service_name_of, resolved_by_of.
  unfold bind at 1. cbn [get get_or ret].
  destruct (Py.or_else (Py.item_or "service" items JNull) (JDict [])) as [| | | | |service];
    try discriminate Hs.
  destruct (Py.or_else (Py.item_or "last_status_change_by" items JNull) (JDict []))
    as [| | | | |actor] eqn:Hactor; try discriminate Ha.
  unfold bind at 1. cbn [get get_or ret].
  destruct (Py.truthy (Py.item_or "summary" service JNull));
    unfold bind; cbn [get get_or ret]; rewrite Hres; cbn [get_or ret];
    rewrite Hmeta; destruct meta as [[s|]]; cbn [resolved_by Py.truthy];
    try destruct (PyStr.is_empty s); cbn [negb]; rewrite ?Hactor; cbn [get get_or ret];
    eexists; reflexivity.
Qed.



End ExportProperties.

(** ** The calendar and the text of a timestamp *)

Lemma range_forallb (f : Z -> bool) len :
  forall lo,
    forallb f (Iso8601.range lo len) = true ->
    forall n, lo <= n < lo + Z.of_nat len -> f n = true.
Proof.
  induction len as [|len IH]; intros lo Hall n Hn; [lia|].
  cbn [Iso8601.range forallb] in Hall. apply andb_true_iff in Hall as [Hlo Hall].
  destruct (Z.eq_dec n lo) as [->|Hne]; [exact Hlo|].
  apply (IH (lo + 1) Hall). lia.
Qed.

Lemma zpad2_checked : forallb (Iso8601.zpad_ok 2) (Iso8601.range 0 (Z.to_nat 100)) = true.
Proof. vm_cast_no_check (eq_refl true). Qed.

Lemma zpad4_checked : forallb (Iso8601.zpad_ok 4) (Iso8601.range 0 (Z.to_nat 10000)) = true.
Proof. vm_cast_no_check (eq_refl true). Qed.

Lemma month_day_checked leapyear :
  forallb (Iso8601.month_day_ok leapyear) (Iso8601.range 0 (Z.to_nat 365)) = true.
Proof. destruct leapyear; vm_cast_no_check (eq_refl true). Qed.

Lemma year_checked : forallb Iso8601.year_ok (Iso8601.range 0 (Z.to_nat 400)) = true.
Proof. vm_cast_no_check (eq_refl true). Qed.

Lemma ord2ymd_unfold n0 :
  Datetime.ord2ymd n0 =
  let n := n0 - 1 in
  let n400 := n / 146097 in
  let n := n mod 146097 in
  let n100 := n / 36524 in
  let n := n mod 36524 in
  let n4 := n / 1461 in
  let n := n mod 1461 in
  let n1 := n / 365 in
  let n := n mod 365 in
  let year := n400 * 400 + 1 + n100 * 100 + n4 * 4 + n1 in
  if (n1 =? 4) || (n100 =? 4) then (year - 1, 12, 31)
  else
    let '(month, day) :=
      Iso8601.month_and_day ((n1 =? 3) && (negb (n4 =? 24) || (n100 =? 3))) n in
    (year, month, day).
Proof.
  unfold Datetime.ord2ymd, Iso8601.month_and_day. cbv zeta.
  destruct (_ || _)%bool; [reflexivity|].
  destruct (_ <? _); reflexivity.
Qed.

(** The first cycle of 400 years. *)
Lemma ord2ymd_cycle r :
  1 <= r <= 146097 ->
  exists y m d,
    Datetime.ord2ymd r = (y, m, d)
    /\ 1 <= y <= 400 /\ (r <= 145731 -> y <= 399)
    /\ 1 <= m <= 12 /\ 1 <= d <= 31
    /\ Iso8601.ymd2ord y m d = r.
Proof.
  intros Hr. rewrite ord2ymd_unfold. cbv zeta.
  rewrite (Z.div_small (r - 1) 146097), (Z.mod_small (r - 1) 146097) by lia.
  pose proof (Z.div_mod (r - 1) 36524 ltac:(lia)) as E100.
  pose proof (Z.mod_pos_bound (r - 1) 36524 ltac:(lia)) as B100.
  set (n100 := (r - 1) / 36524) in *. set (r2 := (r - 1) mod 36524) in *.
  pose proof (Z.div_mod r2 1461 ltac:(lia)) as E4.
  pose proof (Z.mod_pos_bound r2 1461 ltac:(lia)) as B4.
  set (n4 := r2 / 1461) in *. set (r3 := r2 mod 1461) in *.
  pose proof (Z.div_mod r3 365 ltac:(lia)) as E1.
  pose proof (Z.mod_pos_bound r3 365 ltac:(lia)) as B1.
  set (n1 := r3 / 365) in *. set (r4 := r3 mod 365) in *.
  assert (H100 : 0 <= n100 <= 4) by lia.
  assert (H4 : 0 <= n4 <= 24) by lia.
  assert (H1 : 0 <= n1 <= 4) by lia.
  destruct ((n1 =? 4) || (n100 =? 4))%bool eqn:Hspecial.
  - (* the last day of a leap year *)
    exists (0 * 400 + 1 + n100 * 100 + n4 * 4 + n1 - 1), 12, 31.
    split; [reflexivity|].
    apply orb_true_iff in Hspecial as [Hs | Hs]; apply Z.eqb_eq in Hs.
    + assert (Hq : 0 <= 100 * n100 + 4 * n4 + 3 < 400) by lia.
      pose proof (range_forallb Iso8601.year_ok _ 0 year_checked _ Hq) as Hyear.
      unfold Iso8601.year_ok in Hyear. cbv zeta in Hyear.
      replace ((100 * n100 + 4 * n4 + 3) / 100) with n100 in Hyear
        by (apply (Z.div_unique _ 100 n100 (4 * n4 + 3)); lia).
      replace ((100 * n100 + 4 * n4 + 3) mod 100) with (4 * n4 + 3) in Hyear
        by (apply (Z.mod_unique _ 100 n100 (4 * n4 + 3)); lia).
      replace ((4 * n4 + 3) / 4) with n4 in Hyear
        by (apply (Z.div_unique _ 4 n4 3); lia).
      replace ((100 * n100 + 4 * n4 + 3) mod 4) with 3 in Hyear
        by (apply (Z.mod_unique _ 4 (25 * n100 + n4) 3); lia).
      apply andb_true_iff in Hyear as [Hdby Hleap].
      apply Z.eqb_eq in Hdby. apply Bool.eqb_prop in Hleap.
      assert (Hn4 : (n4 =? 24) = false) by (apply Z.eqb_neq; lia).
      rewrite Hn4 in Hleap. cbn in Hleap.
      unfold Iso8601.ymd2ord.
      replace (0 * 400 + 1 + n100 * 100 + n4 * 4 + n1 - 1)
        with (100 * n100 + 4 * n4 + 3 + 1) by lia.
      rewrite Hdby, Hleap. cbn [Datetime.days_before_month Datetime.b2z andb Z.ltb Z.compare
                                Pos.compare Pos.compare_cont].
      change (Datetime.days_before_month 12) with 334.
      change (Datetime.b2z ((2 <? 12) && true)) with 1. lia.
    + assert (r = 146097) by lia. subst r.
      assert (n4 = 0 /\ n1 = 0) as [-> ->] by lia.
      rewrite Hs. split; [lia|]. split; [lia|]. split; [lia|]. split; [lia|]. reflexivity.
  - apply orb_false_iff in Hspecial as [Hs1 Hs100].
    apply Z.eqb_neq in Hs1. apply Z.eqb_neq in Hs100.
    assert (Hq : 0 <= 100 * n100 + 4 * n4 + n1 < 400) by lia.
    pose proof (range_forallb Iso8601.year_ok _ 0 year_checked _ Hq) as Hyear.
    unfold Iso8601.year_ok in Hyear. cbv zeta in Hyear.
    replace ((100 * n100 + 4 * n4 + n1) / 100) with n100 in Hyear
      by (apply (Z.div_unique _ 100 n100 (4 * n4 + n1)); lia).
    replace ((100 * n100 + 4 * n4 + n1) mod 100) with (4 * n4 + n1) in Hyear
      by (apply (Z.mod_unique _ 100 n100 (4 * n4 + n1)); lia).
    replace ((4 * n4 + n1) / 4) with n4 in Hyear
      by (apply (Z.div_unique _ 4 n4 n1); lia).
    replace ((100 * n100 + 4 * n4 + n1) mod 4) with n1 in Hyear
      by (apply (Z.mod_unique _ 4 (25 * n100 + n4) n1); lia).
    apply andb_true_iff in Hyear as [Hdby Hleap].
    apply Z.eqb_eq in Hdby. apply Bool.eqb_prop in Hleap.
    set (leapyear := ((n1 =? 3) && (negb (n4 =? 24) || (n100 =? 3)))%bool) in *.
    assert (Hday : 0 <= r4 < 0 + Z.of_nat (Z.to_nat 365)) by (rewrite Z2Nat.id; lia).
    pose proof (range_forallb (Iso8601.month_day_ok leapyear) _ 0
                  (month_day_checked leapyear) r4 Hday) as Hmd.
    unfold Iso8601.month_day_ok in Hmd.
    destruct (Iso8601.month_and_day leapyear r4) as [m d].
    repeat (apply andb_true_iff in Hmd as [Hmd ?]).
    repeat match goal with
           | H : (_ <=? _) = true |- _ => apply Z.leb_le in H
           | H : (_ =? _) = true |- _ => apply Z.eqb_eq in H
           end.
    exists (0 * 400 + 1 + n100 * 100 + n4 * 4 + n1), m, d.
    split; [reflexivity|].
    unfold Iso8601.ymd2ord.
    replace (0 * 400 + 1 + n100 * 100 + n4 * 4 + n1)
      with (100 * n100 + 4 * n4 + n1 + 1) by lia.
    rewrite Hdby, Hleap. lia.
Qed.

Lemma is_leap_shift y k : Iso8601.is_leap (y + 400 * k) = Iso8601.is_leap y.
Proof.
  unfold Iso8601.is_leap.
  replace ((y + 400 * k) mod 4) with (y mod 4)
    by (replace (y + 400 * k) with (y + (100 * k) * 4) by lia; symmetry; apply Z_mod_plus_full).
  replace ((y + 400 * k) mod 100) with (y mod 100)
    by (replace (y + 400 * k) with (y + (4 * k) * 100) by lia; symmetry; apply Z_mod_plus_full).
  replace ((y + 400 * k) mod 400) with (y mod 400)
    by (replace (y + 400 * k) with (y + k * 400) by lia; symmetry; apply Z_mod_plus_full).
  reflexivity.
Qed.

Lemma days_before_year_shift y k :
  Iso8601.days_before_year (y + 400 * k) = Iso8601.days_before_year y + 146097 * k.
Proof.
  unfold Iso8601.days_before_year. cbv zeta.
  replace ((y + 400 * k - 1) / 4) with ((y - 1) / 4 + 100 * k)
    by (replace (y + 400 * k - 1) with (y - 1 + (100 * k) * 4) by lia;
        rewrite Z_div_plus_full by lia; reflexivity).
  replace ((y + 400 * k - 1) / 100) with ((y - 1) / 100 + 4 * k)
    by (replace (y + 400 * k - 1) with (y - 1 + (4 * k) * 100) by lia;
        rewrite Z_div_plus_full by lia; reflexivity).
  replace ((y + 400 * k - 1) / 400) with ((y - 1) / 400 + k)
    by (replace (y + 400 * k - 1) with (y - 1 + k * 400) by lia;
        rewrite Z_div_plus_full by lia; reflexivity).
  lia.
Qed.

Lemma ymd2ord_shift y m d k :
  Iso8601.ymd2ord (y + 400 * k) m d = Iso8601.ymd2ord y m d + 146097 * k.
Proof.
  unfold Iso8601.ymd2ord. rewrite is_leap_shift, days_before_year_shift. lia.
Qed.

(** The conversion repeats every 146097 days, 400 years later. *)
Lemma ord2ymd_shift r k :
  1 <= r <= 146097 ->
  Datetime.ord2ymd (r + 146097 * k)
  = let '(y, m, d) := Datetime.ord2ymd r in (y + 400 * k, m, d).
Proof.
  intros Hr. unfold Datetime.ord2ymd. cbv zeta.
  replace (r + 146097 * k - 1) with (r - 1 + k * 146097) by lia.
  rewrite Z_div_plus_full, Z_mod_plus_full by lia.
  rewrite (Z.div_small (r - 1) 146097), (Z.mod_small (r - 1) 146097) by lia.
  destruct ((((r - 1) mod 36524 mod 1461 / 365 =? 4) || ((r - 1) / 36524 =? 4))%bool).
  - f_equal. f_equal. lia.
  - destruct (_ <? _); f_equal; f_equal; lia.
Qed.

(** Over the whole calendar, year, month and day are in range and lead
    back to the ordinal. *)
Lemma ord2ymd_ymd2ord n :
  1 <= n <= Datetime.MAXORDINAL ->
  exists y m d,
    Datetime.ord2ymd n = (y, m, d)
    /\ 1 <= y <= 9999 /\ 1 <= m <= 12 /\ 1 <= d <= 31
    /\ Iso8601.ymd2ord y m d = n.
Proof.
  unfold Datetime.MAXORDINAL. intros Hn.
  pose proof (Z.div_mod (n - 1) 146097 ltac:(lia)) as Hdm.
  pose proof (Z.mod_pos_bound (n - 1) 146097 ltac:(lia)) as Hmod.
  set (k := (n - 1) / 146097) in *. set (r := (n - 1) mod 146097 + 1).
  assert (Hk : 0 <= k <= 24).
  { subst k. split; [apply Z.div_pos; lia|].
    assert ((n - 1) / 146097 < 25) by (apply Z.div_lt_upper_bound; lia). lia. }
  assert (Hr : 1 <= r <= 146097) by (subst r; lia).
  assert (En : n = r + 146097 * k) by (subst r; lia).
  destruct (ord2ymd_cycle r Hr) as (y & m & d & E & Hy & Hy' & Hm & Hd & Hback).
  rewrite En, (ord2ymd_shift r k Hr), E.
  exists (y + 400 * k), m, d. split; [reflexivity|].
  rewrite ymd2ord_shift. lia.
Qed.

(** ** The time window *)

Lemma all_chars_app p s t :
  PyStr.all_chars p (s +:+ t) = PyStr.all_chars p s && PyStr.all_chars p t.
Proof.
  induction s as [|c s IH]; [reflexivity|].
  change (String c s +:+ t) with (String c (s +:+ t)).
  cbn [PyStr.all_chars]. rewrite IH, andb_assoc. reflexivity.
Qed.

Lemma uint_chars_iso (u : Decimal.uint) :
  PyStr.all_chars iso_char (NilEmpty.string_of_uint u) = true.
Proof.
  induction u; cbn [NilEmpty.string_of_uint PyStr.all_chars]; rewrite ?IHu; reflexivity.
Qed.

Lemma of_Z_chars_iso n : PyStr.all_chars iso_char (PyStr.of_Z n) = true.
Proof.
  unfold PyStr.of_Z, NilZero.string_of_int.
  destruct (Z.to_int n) as [u|u]; unfold NilZero.string_of_uint.
  - destruct u; try reflexivity; apply uint_chars_iso.
  - cbn [PyStr.all_chars]. destruct u; try reflexivity; apply uint_chars_iso.
Qed.

Lemma zpad_chars_iso width n : PyStr.all_chars iso_char (Datetime.zpad width n) = true.
Proof.
  unfold Datetime.zpad. rewrite all_chars_app, of_Z_chars_iso, andb_true_r.
  induction (width - String.length (PyStr.of_Z n))%nat as [|k IH]; [reflexivity|].
  cbn [Datetime.zeros PyStr.all_chars]. rewrite IH. reflexivity.
Qed.

Lemma iso_seconds_chars dt : PyStr.all_chars iso_char (iso_seconds dt) = true.
Proof.
  unfold iso_seconds. destruct (Datetime.ord2ymd (Datetime.ordinal dt)) as [[y m] d].
  rewrite !all_chars_app, !zpad_chars_iso. reflexivity.
Qed.

(** Replacing the offset at the end of a text without a plus sign. *)
Lemma replace_offset_suffix s :
  PyStr.all_chars iso_char s = true ->
  Py.replace "+00:00" "Z" (s +:+ "+00:00") = s +:+ "Z".
Proof.
  unfold Py.replace. induction s as [|c s IH]; [reflexivity|].
  cbn [PyStr.all_chars]. intros H. apply andb_true_iff in H as [Hc Hs].
  change (String c s +:+ "+00:00") with (String c (s +:+ "+00:00")).
  change (String c s +:+ "Z") with (String c (s +:+ "Z")).
  cbn [Py.replace_from].
  assert (Hpre : String.prefix "+00:00" (String c (s +:+ "+00:00")) = false).
  { cbn [String.prefix]. destruct (ascii_dec "+" c) as [<-|Hne]; [discriminate Hc|reflexivity]. }
  rewrite Hpre, (IH Hs). reflexivity.
Qed.

Lemma append_assoc (a b c : string) : (a +:+ b) +:+ c = a +:+ (b +:+ c).
Proof.
  induction a as [|x a IH]; [reflexivity|].
  change (String x (a +:+ b) +:+ c = String x (a +:+ (b +:+ c))).
  change (String x ((a +:+ b) +:+ c) = String x (a +:+ (b +:+ c))).
  rewrite IH. reflexivity.
Qed.

(** [to_iso8601_utc] gives the text down to the second, then [Z]: no
    fraction of a second and no offset is left. *)
Lemma to_iso8601_utc_shape dt : to_iso8601_utc dt = iso_seconds dt +:+ "Z".
Proof.
  unfold to_iso8601_utc.
  assert (E : Datetime.isoformat (Datetime.replace_microsecond dt 0)
              = iso_seconds dt +:+ "+00:00").
  { unfold Datetime.isoformat, iso_seconds, Datetime.replace_microsecond.
    cbn [Datetime.ordinal Datetime.hour Datetime.minute Datetime.second Datetime.microsecond].
    destruct (Datetime.ord2ymd (Datetime.ordinal dt)) as [[y m] d].
    cbn [Z.eqb]. rewrite !append_assoc. reflexivity. }
  rewrite E. apply replace_offset_suffix, iso_seconds_chars.
Qed.

Lemma take_digits_app k :
  forall acc s v rest,
    Iso8601.take_digits k acc s = Some (v, EmptyString) ->
    Iso8601.take_digits k acc (s +:+ rest) = Some (v, rest).
Proof.
  induction k as [|k IH]; intros acc s v rest H.
  - cbn [Iso8601.take_digits] in *. injection H as <- ->. reflexivity.
  - destruct s as [|c s]; [discriminate H|].
    change (String c s +:+ rest) with (String c (s +:+ rest)).
    cbn [Iso8601.take_digits] in *.
    destruct (Iso8601.digit_value c); [|discriminate H].
    apply IH. exact H.
Qed.

Lemma zpad_ok_digits width n rest :
  Iso8601.zpad_ok width n = true ->
  Iso8601.take_digits width 0 (Datetime.zpad width n +:+ rest) = Some (n, rest).
Proof.
  unfold Iso8601.zpad_ok. intros H. apply take_digits_app.
  destruct (Iso8601.take_digits width 0 (Datetime.zpad width n)) as [[v [|c s]]|];
    try discriminate H.
  apply Z.eqb_eq in H. subst v. reflexivity.
Qed.

Lemma zpad2_digits n rest :
  0 <= n < 100 ->
  Iso8601.take_digits 2 0 (Datetime.zpad 2 n +:+ rest) = Some (n, rest).
Proof.
  intros Hn. apply zpad_ok_digits.
  apply (range_forallb (Iso8601.zpad_ok 2) _ 0 zpad2_checked n).
  rewrite Z2Nat.id; lia.
Qed.

Lemma zpad4_digits n rest :
  0 <= n < 10000 ->
  Iso8601.take_digits 4 0 (Datetime.zpad 4 n +:+ rest) = Some (n, rest).
Proof.
  intros Hn. apply zpad_ok_digits.
  apply (range_forallb (Iso8601.zpad_ok 4) _ 0 zpad4_checked n).
  rewrite Z2Nat.id; lia.
Qed.

Lemma expect_char c rest :
  Iso8601.expect c (String c EmptyString +:+ rest) = Some rest.
Proof.
  rewrite append_char. cbn [Iso8601.expect]. rewrite Ascii.eqb_refl. reflexivity.
Qed.

(** The text [to_iso8601_utc] gives reads back as the instant of the
    datetime, cut to the second. *)
Lemma parse_to_iso8601_utc dt :
  Datetime.valid dt ->
  Iso8601.parse (to_iso8601_utc dt)
  = Some (Iso8601.seconds_of (Datetime.ordinal dt) (Datetime.hour dt)
            (Datetime.minute dt) (Datetime.second dt)).
Proof.
  intros (Hord & Hh & Hm & Hs & _).
  destruct (ord2ymd_ymd2ord (Datetime.ordinal dt) Hord) as (y & m & d & E & Hy & Hmo & Hd & Hback).
  rewrite to_iso8601_utc_shape. unfold iso_seconds. rewrite E.
  rewrite !append_assoc. unfold Iso8601.parse.
  rewrite zpad4_digits, expect_char by lia.
  rewrite zpad2_digits, expect_char by lia.
  rewrite zpad2_digits, expect_char by lia.
  rewrite zpad2_digits, expect_char by lia.
  rewrite zpad2_digits, expect_char by lia.
  rewrite zpad2_digits by lia.
  rewrite Hback. reflexivity.
Qed.

Lemma sub_days_in_range now d :
  Datetime.valid now -> 1 <= d -> d < Datetime.ordinal now ->
  Datetime.sub_days now d
  = Some {| Datetime.ordinal := Datetime.ordinal now - d;
            Datetime.hour := Datetime.hour now;
            Datetime.minute := Datetime.minute now;
            Datetime.second := Datetime.second now;
            Datetime.microsecond := Datetime.microsecond now |}.
Proof.
  intros (Hord & _) Hd Hlt. unfold Datetime.sub_days, Datetime.MAXORDINAL in *.
  assert (E1 : (d <? -999999999) || (999999999 <? d) = false).
  { apply orb_false_iff. split; [apply Z.ltb_ge | apply Z.ltb_ge]; lia. }
  assert (E2 : (0 <? Datetime.ordinal now - d) && (Datetime.ordinal now - d <=? 3652059) = true).
  { apply andb_true_iff. split; [apply Z.ltb_lt | apply Z.leb_le]; lia. }
  rewrite E1, E2. reflexivity.
Qed.

(** The window of [main], for any [days] whose clamped lookback stays in
    the calendar. *)
Lemma time_window_computed now days w :
  Datetime.valid now -> Z.max 1 days < Datetime.ordinal now ->
  exists since until since_seconds until_seconds,
    time_window now days w = (Returned (Z.max 1 days, since, until), w)
    /\ Iso8601.parse since = Some since_seconds
    /\ Iso8601.parse until = Some until_seconds
    /\ since_seconds = until_seconds - Z.max 1 days * 86400
    /\ until = iso_seconds now +:+ "Z"
    /\ exists lookback_utc,
         Datetime.sub_days now (Z.max 1 days) = Some lookback_utc
         /\ since = iso_seconds lookback_utc +:+ "Z"
         /\ Datetime.to_micros lookback_utc
            = Datetime.to_micros now - Z.max 1 days * MICROS_PER_DAY.
Proof.
  intros Hvalid Hlt.
  assert (Hd : 1 <= Z.max 1 days) by lia.
  pose proof (sub_days_in_range now (Z.max 1 days) Hvalid Hd Hlt) as Hsub.
  set (d := Z.max 1 days) in *.
  set (lookback_utc := {| Datetime.ordinal := Datetime.ordinal now - d;
                          Datetime.hour := Datetime.hour now;
                          Datetime.minute := Datetime.minute now;
                          Datetime.second := Datetime.second now;
                          Datetime.microsecond := Datetime.microsecond now |}) in *.
  assert (Hvalid' : Datetime.valid lookback_utc).
  { unfold Datetime.valid, Datetime.MAXORDINAL in *. subst lookback_utc.
    cbn [Datetime.ordinal Datetime.hour Datetime.minute Datetime.second Datetime.microsecond].
    lia. }
  exists (to_iso8601_utc lookback_utc), (to_iso8601_utc now),
    (Iso8601.seconds_of (Datetime.ordinal lookback_utc) (Datetime.hour lookback_utc)
       (Datetime.minute lookback_utc) (Datetime.second lookback_utc)),
    (Iso8601.seconds_of (Datetime.ordinal now) (Datetime.hour now)
       (Datetime.minute now) (Datetime.second now)).
  split; [unfold time_window; fold d; rewrite Hsub; reflexivity|].
  split; [apply parse_to_iso8601_utc; exact Hvalid'|].
  split; [apply parse_to_iso8601_utc; exact Hvalid|].
  split; [unfold Iso8601.seconds_of; subst lookback_utc;
          cbn [Datetime.ordinal Datetime.hour Datetime.minute Datetime.second]; lia|].
  split; [apply to_iso8601_utc_shape|].
  exists lookback_utc. split; [exact Hsub|]. split; [apply to_iso8601_utc_shape|].
  unfold Datetime.to_micros, MICROS_PER_DAY. subst lookback_utc.
  cbn [Datetime.ordinal Datetime.hour Datetime.minute Datetime.second Datetime.microsecond].
  lia.
Qed.

(** C8, amended. For a lookback of [d] days, [1 <= d], that does not reach
    back beyond the first day of the calendar ([d] below the ordinal of
    today), the window is computed: both timestamps are texts
    [YYYY-MM-DDTHH:MM:SS] followed by [Z], without a fraction of a second,
    and read back as instants, [since] is exactly [d] days of 86400 seconds
    before [until]. *)
Theorem time_window_exact now d w :
  Datetime.valid now -> 1 <= d -> d < Datetime.ordinal now ->
  exists since until since_seconds until_seconds,
    time_window now d w = (Returned (d, since, until), w)
    /\ Iso8601.parse since = Some since_seconds
    /\ Iso8601.parse until = Some until_seconds
    /\ since_seconds = until_seconds - d * 86400
    /\ until = iso_seconds now +:+ "Z"
    /\ exists lookback_utc,
         Datetime.sub_days now d = Some lookback_utc
         /\ since = iso_seconds lookback_utc +:+ "Z"
         /\ Datetime.to_micros lookback_utc = Datetime.to_micros now - d * MICROS_PER_DAY.
Proof.
  intros Hvalid Hd Hlt.
  pose proof (time_window_computed now d w Hvalid) as H.
  rewrite (Z.max_r 1 d Hd) in H. apply H. exact Hlt.
Qed.


(** ** The pipeline *)

Section MainProperties.

Variable py_repr : json -> string.
Variable py_int_of_str : string -> option Z.

Lemma validate_team_id_files team_id w :
  files (snd (validate_team_id team_id w)) = files w.
Proof.
  unfold validate_team_id.
  destruct (PyStr.is_empty team_id || negb (is_pagerduty_team_id team_id)); reflexivity.
Qed.

Lemma find_team_files team_name teams :
  forall w, files (snd (find_team py_repr team_name teams w)) = files w.
Proof.
  induction teams as [|team teams IH]; intros w; [reflexivity|].
  cbn [find_team]. unfold bind at 1.
  destruct team as [| | | | |items]; try reflexivity.
  cbn [get_or ret]. destruct (String.eqb _ _); [|apply IH].
  unfold bind at 1. cbn [get get_or ret]. apply validate_team_id_files.
Qed.

Lemma get_team_id_by_name_files team_name w :
  files (snd (get_team_id_by_name py_repr team_name w)) = files w.
Proof.
  unfold get_team_id_by_name. unfold bind at 1. unfold requests_get.
  destruct (pending w) as [|r rest]; [reflexivity|].
  destruct r as [msg | status text body]; [reflexivity|].
  destruct (negb (status =? 200)); [reflexivity|].
  destruct body as [j|]; [|reflexivity].
  cbn [response_json]. unfold bind at 1. cbn [ret].
  destruct (Py.or_else j (JDict [])) as [| | | | |items]; try reflexivity.
  unfold bind at 1. cbn [get_or ret]. unfold bind at 1, iterate.
  destruct (Py.elements (Py.item_or "teams" items (JList []))) as [teams|]; [|reflexivity].
  cbn [ret]. rewrite find_team_files. reflexivity.
Qed.

(** Nothing before the export writes a file. *)
Lemma main_setup_files token args w :
  files (snd (main_setup py_repr token args w)) = files w.
Proof.
  unfold main_setup.
  destruct (PyStr.is_empty (default "" token)); [reflexivity|].
  unfold bind at 1.
  assert (Hname : forall o v,
            (if PyStr.is_empty (default "" (arg_team_name args))
             then line <- input "Enter the PagerDuty team name: ";;
                  ret (PyStr.strip PyStr.is_space line)
             else ret (default "" (arg_team_name args))) w = (o, v) ->
            files v = files w).
  { intros o v. destruct (PyStr.is_empty (default "" (arg_team_name args))).
    - unfold bind, input, ret. destruct (stdin w); intros H; injection H as <- <-; reflexivity.
    - unfold ret. intros H. injection H as <- <-. reflexivity. }
  destruct (if PyStr.is_empty (default "" (arg_team_name args)) then _ else _) as [o v] eqn:Hrun.
  specialize (Hname o v eq_refl).
  destruct o as [team_name|c|e|]; try exact Hname.
  destruct (PyStr.is_empty team_name); [exact Hname|].
  unfold bind at 1.
  assert (Hid : forall o1 v1,
            (if is_pagerduty_team_id team_name then ret team_name
             else get_team_id_by_name py_repr team_name) v = (o1, v1) ->
            files v1 = files w).
  { intros o1 v1. destruct (is_pagerduty_team_id team_name).
    - unfold ret. intros H. injection H as <- <-. exact Hname.
    - intros H. rewrite <- Hname. change v1 with (snd (o1, v1)). rewrite <- H.
      apply get_team_id_by_name_files. }
  destruct (if is_pagerduty_team_id team_name then _ else _) as [o1 v1] eqn:Hrun1.
  specialize (Hid o1 v1 eq_refl).
  destruct o1 as [team_id|c|e|]; try exact Hid.
  unfold bind at 1, datetime_now. unfold bind at 1, time_window.
  destruct (Datetime.sub_days (clock v1) (Z.max 1 (arg_days args))); [|exact Hid].
  cbn [ret]. unfold bind, emit, ret. exact Hid.
Qed.

(** C9. When the fetcher returns no incident, [main] ends after the
    message that none was found: the exporter is not called, so no file
    is created, emptied or written, not even with the header row. *)
Theorem no_incidents_no_artifact token args w team_name team_id lookback_days since until w1 w2 :
  main_setup py_repr token args w
  = (Returned (team_name, team_id, lookback_days, since, until), w1) ->
  get_incidents_for_team py_int_of_str team_id since until w1 = (Returned [], w2) ->
  main py_repr py_int_of_str token args w
  = (Returned tt,
     set_stdout w2 (stdout w2 ++ [Print ("[INFO]: No incidents found for team '"
                      +:+ team_name +:+ "' in the last " +:+ PyStr.of_Z lookback_days
                      +:+ " days.")]))
  /\ files (snd (main py_repr py_int_of_str token args w)) = files w
  /\ sent (snd (main py_repr py_int_of_str token args w)) = sent w2.
Proof.
  intros Hsetup Hfetch.
  assert (Hmain : main py_repr py_int_of_str token args w
                  = (Returned tt,
                     set_stdout w2 (stdout w2 ++ [Print ("[INFO]: No incidents found for team '"
                       +:+ team_name +:+ "' in the last " +:+ PyStr.of_Z lookback_days
                       +:+ " days.")]))).
  { unfold main. unfold bind at 1. rewrite Hsetup. unfold bind at 1. rewrite Hfetch.
    reflexivity. }
  rewrite Hmain. cbn [snd files sent set_stdout]. repeat split.
  pose proof (get_incidents_files py_int_of_str team_id since until w1) as Hf2.
  rewrite Hfetch in Hf2. cbn [snd] in Hf2. rewrite Hf2.
  pose proof (main_setup_files token args w) as Hf1.
  rewrite Hsetup in Hf1. exact Hf1.
Qed.

End MainProperties.

(** * The properties on the sample data *)

Lemma sanitize_examples_more :
  sanitize_filename_component "__A  b__" = "a_b"
  /\ sanitize_filename_component "" = "team"
  /\ sanitize_filename_component "Ops/DB (EU)" = "ops_db_eu".
Proof. repeat split; reflexivity. Qed.

Lemma team_id_examples :
  is_pagerduty_team_id "PABC123" = true
  /\ is_pagerduty_team_id "PABC12" = false
  /\ is_pagerduty_team_id "Pabc123" = false
  /\ is_pagerduty_team_id (String.append "PABC123" (String "010" "")) = true.
Proof. repeat split; reflexivity. Qed.









Lemma no_incidents_no_artifact_witness :
  files (snd (main Sample.repr Sample.int_of_str (Some "token") (Sample.args 7)
                (Sample.world_of [Sample.teams_page; Sample.empty_page])))
  = ∅.
Proof.
  apply (no_incidents_no_artifact Sample.repr Sample.int_of_str (Some "token") (Sample.args 7)
           (Sample.world_of [Sample.teams_page; Sample.empty_page])
           "Observability" "PABC123" 7 "2023-12-25T09:05:07Z" "2024-01-01T09:05:07Z"
           (snd (main_setup Sample.repr (Some "token") (Sample.args 7)
                   (Sample.world_of [Sample.teams_page; Sample.empty_page])))
           (snd (get_incidents_for_team Sample.int_of_str "PABC123"
                   "2023-12-25T09:05:07Z" "2024-01-01T09:05:07Z"
                   (snd (main_setup Sample.repr (Some "token") (Sample.args 7)
                           (Sample.world_of [Sample.teams_page; Sample.empty_page])))))).
  - reflexivity.
  - reflexivity.
Defined.

Lemma time_window_exact_witness :
  exists since until since_seconds until_seconds,
    time_window Sample.now 180 (Sample.world_of [])
    = (Returned (180, since, until), Sample.world_of [])
    /\ Iso8601.parse since = Some since_seconds
    /\ Iso8601.parse until = Some until_seconds
    /\ since_seconds = until_seconds - 180 * 86400
    /\ until = iso_seconds Sample.now +:+ "Z"
    /\ exists lookback_utc,
         Datetime.sub_days Sample.now 180 = Some lookback_utc
         /\ since = iso_seconds lookback_utc +:+ "Z"
         /\ Datetime.to_micros lookback_utc
            = Datetime.to_micros Sample.now - 180 * MICROS_PER_DAY.
Proof.
  apply (time_window_exact Sample.now 180 (Sample.world_of [])).
  - unfold Datetime.valid, Datetime.MAXORDINAL. cbn. lia.
  - lia.
  - cbn. lia.
Defined.

Lemma time_window_sample :
  time_window Sample.now 180 (Sample.world_of [])
  = (Returned (180, "2023-07-05T09:05:07Z", "2024-01-01T09:05:07Z"), Sample.world_of [])
  /\ Iso8601.parse "2024-01-01T09:05:07Z" = Some 63839696707
  /\ Iso8601.parse "2023-07-05T09:05:07Z" = Some (63839696707 - 180 * 86400).
Proof. repeat split; reflexivity. Qed.

(** A lookback of a million days reaches back beyond the first day of the
    calendar: [OverflowError] leaves the computation of the window. *)
Lemma time_window_million_days_overflows :
  0 < 1000000
  /\ time_window Sample.now 1000000 (Sample.world_of [])
     = (Uncaught OverflowError, Sample.world_of []).
Proof. split; reflexivity. Qed.



Lemma pipeline_end_to_end :
  let run := main Sample.repr Sample.int_of_str (Some "token") (Sample.args 0)
               (Sample.world_of [Sample.teams_page; Sample.first_page (JInt 2);
                                 Sample.last_page; Sample.log_resolved_by_ann]) in
  fst run = Returned tt
  /\ files (snd run) !! "pagerduty_incidents_observability.csv"
     = Some [csv_headers;
             [JStr ""; JInt 41; JStr "db down"; JStr "resolved"; JStr "DB"; JStr "N/A";
              JStr "N/A"; JStr "Ann"];
             [JStr ""; JInt 42; JStr "N/A"; JStr "triggered"; JStr "N/A"; JStr "N/A";
              JStr "N/A"; JStr ""]]
  /\ sent (snd run)
     = [GetTeams "Observability" 100;
        GetIncidents "PABC123" "2023-12-31T09:05:07Z" "2024-01-01T09:05:07Z" 100 0 "true";
        GetIncidents "PABC123" "2023-12-31T09:05:07Z" "2024-01-01T09:05:07Z" 100 100 "true";
        GetLogEntries "Q1" 100 "false" "users"].
Proof. vm_compute. repeat split; reflexivity. Qed.

(** * More on the code: names and identifiers *)

Lemma lower_char_class c :
  non_alnum (PyStr.lower_char c) = false -> filename_char (PyStr.lower_char c) = true.
Proof. destruct c as [[] [] [] [] [] [] [] []]; vm_compute; congruence. Qed.

Lemma lower_char_fixed c : filename_char c = true -> PyStr.lower_char c = c.
Proof. destruct c as [[] [] [] [] [] [] [] []]; vm_compute; congruence. Qed.

Lemma filename_char_not_space c : filename_char c = true -> PyStr.is_space c = false.
Proof. destruct c as [[] [] [] [] [] [] [] []]; vm_compute; congruence. Qed.

Lemma filename_char_alnum_or_underscore c :
  filename_char c = true -> non_alnum c = is_underscore c.
Proof. destruct c as [[] [] [] [] [] [] [] []]; vm_compute; congruence. Qed.

Lemma underscore_non_alnum c : is_underscore c = true -> non_alnum c = true.
Proof. destruct c as [[] [] [] [] [] [] [] []]; vm_compute; congruence. Qed.

Lemma all_chars_lstrip p q s :
  PyStr.all_chars q s = true -> PyStr.all_chars q (PyStr.lstrip p s) = true.
Proof.
  induction s as [|c s IH]; [reflexivity|].
  cbn [PyStr.all_chars PyStr.lstrip]. intros H. apply andb_true_iff in H as [Hc Hs].
  destruct (p c); [apply IH; exact Hs|].
  cbn [PyStr.all_chars]. rewrite Hc, Hs. reflexivity.
Qed.

Lemma all_chars_rstrip p q s :
  PyStr.all_chars q s = true -> PyStr.all_chars q (PyStr.rstrip p s) = true.
Proof.
  induction s as [|c s IH]; [reflexivity|].
  cbn [PyStr.all_chars]. intros H. apply andb_true_iff in H as [Hc Hs].
  rewrite rstrip_cons. destruct (_ && _); [reflexivity|].
  cbn [PyStr.all_chars]. rewrite Hc, (IH Hs). reflexivity.
Qed.

Lemma re_sub_chars s : forall b,
  PyStr.all_chars filename_char
    (PyStr.re_sub_runs_from b non_alnum "_" (PyStr.lower s)) = true.
Proof.
  induction s as [|c s IH]; intros b; [reflexivity|].
  cbn [PyStr.lower PyStr.re_sub_runs_from].
  destruct (non_alnum (PyStr.lower_char c)) eqn:Hc.
  - destruct b; [apply IH|]. rewrite append_char. cbn [PyStr.all_chars].
    rewrite IH. reflexivity.
  - cbn [PyStr.all_chars]. rewrite (lower_char_class c Hc), IH. reflexivity.
Qed.

Lemma lstrip_idempotent p s : PyStr.lstrip p (PyStr.lstrip p s) = PyStr.lstrip p s.
Proof.
  induction s as [|c s IH]; [reflexivity|].
  cbn [PyStr.lstrip]. destruct (p c) eqn:Hc; [exact IH|].
  cbn [PyStr.lstrip]. rewrite Hc. reflexivity.
Qed.

Lemma rstrip_idempotent p s : PyStr.rstrip p (PyStr.rstrip p s) = PyStr.rstrip p s.
Proof.
  induction s as [|c s IH]; [reflexivity|].
  rewrite rstrip_cons. destruct (PyStr.is_empty (PyStr.rstrip p s) && p c) eqn:E; [reflexivity|].
  rewrite rstrip_cons, IH, E. reflexivity.
Qed.

Lemma strip_idempotent p s : PyStr.strip p (PyStr.strip p s) = PyStr.strip p s.
Proof.
  unfold PyStr.strip.
  rewrite (strip_commutes p s), lstrip_idempotent, <- (strip_commutes p s), rstrip_idempotent.
  reflexivity.
Qed.

(** What [re.sub] leaves has no two underscores in a row, and does not
    start with one when the run was open already. *)
Lemma re_sub_no_double s : forall b,
  no_double_underscore (PyStr.re_sub_runs_from b non_alnum "_" s) = true
  /\ (b = true ->
      starts_with_underscore (PyStr.re_sub_runs_from b non_alnum "_" s) = false).
Proof.
  induction s as [|c s IH]; intros b; [split; reflexivity|].
  cbn [PyStr.re_sub_runs_from].
  destruct (non_alnum c) eqn:Hc.
  - destruct b; [apply IH|].
    split; [|discriminate].
    rewrite append_char. destruct (IH true) as [Hnd Hstart]. specialize (Hstart eq_refl).
    cbn [no_double_underscore]. rewrite Hnd.
    destruct (PyStr.re_sub_runs_from true non_alnum "_" s) as [|c' t]; [reflexivity|].
    cbn [starts_with_underscore] in Hstart. rewrite Hstart, andb_false_r. reflexivity.
  - assert (Hu : is_underscore c = false).
    { destruct (is_underscore c) eqn:E; [|reflexivity].
      rewrite (underscore_non_alnum c E) in Hc. discriminate Hc. }
    split.
    + destruct (IH false) as [Hnd _]. cbn [no_double_underscore]. rewrite Hnd, Hu.
      destruct (PyStr.re_sub_runs_from false non_alnum "_" s); reflexivity.
    + intros _. cbn [starts_with_underscore]. exact Hu.
Qed.

Lemma no_double_tail c s : no_double_underscore (String c s) = true -> no_double_underscore s = true.
Proof. cbn [no_double_underscore]. intros H. apply andb_true_iff in H as [_ H]. exact H. Qed.

Lemma no_double_lstrip p s :
  no_double_underscore s = true -> no_double_underscore (PyStr.lstrip p s) = true.
Proof.
  induction s as [|c s IH]; [reflexivity|]. intros H.
  cbn [PyStr.lstrip]. destruct (p c); [apply IH, (no_double_tail c s H) | exact H].
Qed.

Lemma no_double_cons2 c c' t :
  no_double_underscore (String c (String c' t))
  = negb (is_underscore c && is_underscore c') && no_double_underscore (String c' t).
Proof. reflexivity. Qed.

Lemma no_double_rstrip p s :
  no_double_underscore s = true -> no_double_underscore (PyStr.rstrip p s) = true.
Proof.
  induction s as [|c s IH]; [reflexivity|]. intros H.
  rewrite rstrip_cons. destruct (_ && _); [reflexivity|].
  pose proof (IH (no_double_tail c s H)) as Hr.
  destruct s as [|c' s]; [reflexivity|].
  rewrite rstrip_cons in *. destruct (_ && _); [reflexivity|].
  rewrite no_double_cons2 in *. apply andb_true_iff in H as [H _].
  rewrite H, Hr. reflexivity.
Qed.

(** The form of what the sanitizer returns. *)
Lemma sanitize_sanitized name : sanitized (sanitize_filename_component name) = true.
Proof.
  unfold sanitize_filename_component.
  set (s := PyStr.strip is_underscore _).
  destruct (PyStr.is_empty s) eqn:He; [reflexivity|].
  unfold sanitized. rewrite He. cbn [negb andb].
  assert (Hchars : PyStr.all_chars filename_char s = true).
  { subst s. unfold PyStr.strip, PyStr.re_sub_runs.
    apply all_chars_rstrip, all_chars_lstrip, re_sub_chars. }
  assert (Hstrip : PyStr.strip is_underscore s = s) by (subst s; apply strip_idempotent).
  assert (Hnd : no_double_underscore s = true).
  { subst s. unfold PyStr.strip, PyStr.re_sub_runs.
    apply no_double_rstrip, no_double_lstrip, re_sub_no_double. }
  rewrite Hchars, Hstrip, String.eqb_refl, Hnd. reflexivity.
Qed.

Lemma sanitize_output_form_aux name :
  PyStr.is_empty (sanitize_filename_component name) = false
  /\ PyStr.all_chars filename_char (sanitize_filename_component name) = true
  /\ PyStr.strip is_underscore (sanitize_filename_component name)
     = sanitize_filename_component name
  /\ no_double_underscore (sanitize_filename_component name) = true.
Proof.
  pose proof (sanitize_sanitized name) as H. unfold sanitized in H.
  repeat (apply andb_true_iff in H as [H ?]).
  apply negb_true_iff in H.
  repeat split; try assumption. apply String.eqb_eq. assumption.
Qed.

(** X1. Whatever the team name, [sanitize_filename_component] returns a
    string that is not empty, is made of the characters [a-z], [0-9] and
    the underscore only, has no underscore at either end and no two
    underscores in a row: no separator of a path, no dot and no space gets
    through. *)
Theorem sanitize_output_form name :
  PyStr.is_empty (sanitize_filename_component name) = false
  /\ PyStr.all_chars filename_char (sanitize_filename_component name) = true
  /\ PyStr.strip is_underscore (sanitize_filename_component name)
     = sanitize_filename_component name
  /\ no_double_underscore (sanitize_filename_component name) = true.
Proof. exact (sanitize_output_form_aux name). Qed.

Lemma lstrip_none p q s :
  (forall c, q c = true -> p c = false) ->
  PyStr.all_chars q s = true -> PyStr.lstrip p s = s.
Proof.
  intros Hpq. destruct s as [|c s]; [reflexivity|].
  cbn [PyStr.all_chars PyStr.lstrip]. intros H. apply andb_true_iff in H as [Hc _].
  rewrite (Hpq c Hc). reflexivity.
Qed.

Lemma rstrip_none p q s :
  (forall c, q c = true -> p c = false) ->
  PyStr.all_chars q s = true -> PyStr.rstrip p s = s.
Proof.
  intros Hpq. induction s as [|c s IH]; [reflexivity|].
  cbn [PyStr.all_chars]. intros H. apply andb_true_iff in H as [Hc Hs].
  rewrite rstrip_cons, (IH Hs), (Hpq c Hc), andb_false_r. reflexivity.
Qed.

Lemma lower_fixed s : PyStr.all_chars filename_char s = true -> PyStr.lower s = s.
Proof.
  induction s as [|c s IH]; [reflexivity|].
  cbn [PyStr.all_chars PyStr.lower]. intros H. apply andb_true_iff in H as [Hc Hs].
  rewrite (lower_char_fixed c Hc), (IH Hs). reflexivity.
Qed.

Lemma re_sub_fixed s :
  PyStr.all_chars filename_char s = true ->
  no_double_underscore s = true ->
  PyStr.re_sub_runs_from false non_alnum "_" s = s
  /\ (starts_with_underscore s = false ->
      PyStr.re_sub_runs_from true non_alnum "_" s = s).
Proof.
  induction s as [|c s IH]; [split; reflexivity|].
  cbn [PyStr.all_chars]. intros H Hnd. apply andb_true_iff in H as [Hc Hs].
  destruct (IH Hs (no_double_tail c s Hnd)) as [IH1 IH2].
  cbn [PyStr.re_sub_runs_from starts_with_underscore].
  rewrite (filename_char_alnum_or_underscore c Hc).
  destruct (is_underscore c) eqn:Hu.
  - split; [|discriminate].
    assert (Hstart : starts_with_underscore s = false).
    { destruct s as [|c' s]; [reflexivity|].
      rewrite no_double_cons2 in Hnd. apply andb_true_iff in Hnd as [Hnd _].
      rewrite Hu in Hnd. cbn [andb] in Hnd. apply negb_true_iff in Hnd. exact Hnd. }
    rewrite append_char, (IH2 Hstart).
    unfold is_underscore in Hu. apply Ascii.eqb_eq in Hu. subst c. reflexivity.
  - rewrite IH1. split; reflexivity.
Qed.

Lemma sanitize_fixed s : sanitized s = true -> sanitize_filename_component s = s.
Proof.
  unfold sanitized. intros H. repeat (apply andb_true_iff in H as [H ?]).
  apply negb_true_iff in H.
  match goal with Hs : String.eqb _ _ = true |- _ => apply String.eqb_eq in Hs end.
  unfold sanitize_filename_component, PyStr.re_sub_runs.
  assert (Hspace : PyStr.strip PyStr.is_space s = s).
  { unfold PyStr.strip.
    rewrite (lstrip_none _ filename_char s filename_char_not_space) by assumption.
    apply (rstrip_none _ filename_char s filename_char_not_space). assumption. }
  rewrite Hspace, lower_fixed by assumption.
  rewrite (proj1 (re_sub_fixed s ltac:(assumption) ltac:(assumption))).
  match goal with Hs : PyStr.strip _ _ = _ |- _ => rewrite Hs end.
  rewrite H. reflexivity.
Qed.

(** X2. Sanitizing is idempotent: a name that came out of
    [sanitize_filename_component] goes through it unchanged (the fallback
    token [team] too). *)
Theorem sanitize_idempotent name :
  sanitize_filename_component (sanitize_filename_component name)
  = sanitize_filename_component name.
Proof. apply sanitize_fixed, sanitize_sanitized. Qed.

Lemma path_char_of_filename_char s :
  PyStr.all_chars filename_char s = true -> PyStr.all_chars path_char s = true.
Proof.
  induction s as [|c s IH]; [reflexivity|].
  cbn [PyStr.all_chars]. intros H. apply andb_true_iff in H as [Hc Hs].
  unfold path_char at 1. rewrite Hc, (IH Hs). reflexivity.
Qed.

(** X3. When no output file is given (no value, or the empty string),
    [write_incidents_to_csv] writes to [pagerduty_incidents_<name>.csv]
    with [<name>] the sanitized team name, a path made of [a-z], [0-9],
    underscores and the dot only, so it stays in the working directory
    whatever the team is called; a file name that is given is used as it
    is. *)
Theorem default_csv_filename_form team_name filename :
  (PyStr.is_empty (default "" filename) = true ->
   csv_filename team_name filename
   = "pagerduty_incidents_" +:+ sanitize_filename_component team_name +:+ ".csv"
   /\ PyStr.all_chars path_char (csv_filename team_name filename) = true)
  /\ (PyStr.is_empty (default "" filename) = false ->
      filename = Some (csv_filename team_name filename)).
Proof.
  unfold csv_filename. split; intros H; rewrite H.
  - split; [reflexivity|].
    rewrite !all_chars_app.
    rewrite (path_char_of_filename_char _ (proj1 (proj2 (sanitize_output_form_aux team_name)))).
    reflexivity.
  - destruct filename as [f|]; [reflexivity | discriminate H].
Qed.

Lemma lstrip_split p s :
  exists core,
    s = core +:+ PyStr.lstrip p s /\ PyStr.all_chars p core = true
    /\ String.length s = (String.length core + String.length (PyStr.lstrip p s))%nat.
Proof.
  induction s as [|c s (core & E & Hall & Hlen)]; [exists EmptyString; repeat split|].
  cbn [PyStr.lstrip]. destruct (p c) eqn:Hc.
  - exists (String c core). repeat split.
    + change (String c core +:+ PyStr.lstrip p s) with (String c (core +:+ PyStr.lstrip p s)).
      rewrite <- E. reflexivity.
    + cbn [PyStr.all_chars]. rewrite Hc, Hall. reflexivity.
    + cbn [String.length]. rewrite Hlen. reflexivity.
  - exists EmptyString. repeat split.
Qed.

Lemma lstrip_app_all p core rest :
  PyStr.all_chars p core = true -> PyStr.lstrip p (core +:+ rest) = PyStr.lstrip p rest.
Proof.
  induction core as [|c core IH]; [reflexivity|].
  cbn [PyStr.all_chars]. intros H. apply andb_true_iff in H as [Hc Hs].
  change (String c core +:+ rest) with (String c (core +:+ rest)).
  cbn [PyStr.lstrip]. rewrite Hc. apply IH, Hs.
Qed.

Lemma length_append (s t : string) :
  String.length (s +:+ t) = (String.length s + String.length t)%nat.
Proof.
  induction s as [|c s IH]; [reflexivity|].
  change (String c s +:+ t) with (String c (s +:+ t)).
  cbn [String.length]. rewrite IH. reflexivity.
Qed.

Lemma append_empty_r (s : string) : s +:+ "" = s.
Proof.
  induction s as [|c s IH]; [reflexivity|].
  change (String c s +:+ "") with (String c (s +:+ "")). rewrite IH. reflexivity.
Qed.

(** X4. [is_pagerduty_team_id] accepts exactly the strings made of seven
    or more characters [A-Z] and [0-9], and those strings followed by one
    line feed (the dollar of the pattern matches before a final line
    feed); anything else, the empty string included, is refused. *)
Theorem team_id_pattern value :
  is_pagerduty_team_id value = true <->
  exists core,
    (value = core \/ value = core +:+ String "010" "")
    /\ PyStr.all_chars PyStr.is_upper_or_digit core = true
    /\ (7 <= String.length core)%nat.
Proof.
  unfold is_pagerduty_team_id. split.
  - intros H. apply andb_true_iff in H as [Hlen Hrest].
    destruct (lstrip_split PyStr.is_upper_or_digit value) as (core & E & Hall & Hl).
    apply Z.leb_le in Hlen. exists core.
    split; [|split; [exact Hall | lia]].
    apply orb_true_iff in Hrest as [Hr | Hr]; apply String.eqb_eq in Hr;
      rewrite Hr in E.
    + left. rewrite append_empty_r in E. exact E.
    + right. exact E.
  - intros (core & [-> | ->] & Hall & Hlen).
    + pose proof (lstrip_app_all _ core "" Hall) as E. rewrite append_empty_r in E.
      rewrite E. cbn [PyStr.lstrip String.length String.eqb orb].
      rewrite andb_true_r. apply Z.leb_le. lia.
    + rewrite (lstrip_app_all _ core _ Hall), length_append.
      change (PyStr.lstrip PyStr.is_upper_or_digit (String "010" "")) with (String "010" "").
      rewrite String.eqb_refl, orb_true_r, andb_true_r.
      apply Z.leb_le. cbn [String.length]. lia.
Qed.

(** * More on the code: the team resolver *)

Section ResolveMore.

Variable py_repr : json -> string.

Lemma validate_team_id_returned team_id w id w' :
  validate_team_id team_id w = (Returned id, w') ->
  id = team_id /\ is_pagerduty_team_id team_id = true /\ w' = w.
Proof.
  unfold validate_team_id.
  destruct (PyStr.is_empty team_id || negb (is_pagerduty_team_id team_id)) eqn:E.
  - unfold bind, emit, sys_exit. discriminate.
  - unfold ret. intros H. injection H as <- <-.
    apply orb_false_iff in E as [_ E]. apply negb_false_iff in E. repeat split. exact E.
Qed.

(** What [validate_team_id] leaves of the world: everything but the
    terminal. *)
Lemma validate_team_id_frame team_id w :
  sent (snd (validate_team_id team_id w)) = sent w
  /\ pending (snd (validate_team_id team_id w)) = pending w.
Proof.
  unfold validate_team_id.
  destruct (PyStr.is_empty team_id || negb (is_pagerduty_team_id team_id)); split; reflexivity.
Qed.

Lemma find_team_returned team_name teams :
  forall w id w',
    find_team py_repr team_name teams w = (Returned id, w') ->
    is_pagerduty_team_id id = true.
Proof.
  induction teams as [|team teams IH]; intros w id w'.
  - cbn [find_team]. unfold bind, emit, sys_exit. discriminate.
  - cbn [find_team]. unfold bind at 1.
    destruct team as [| | | | |items]; try (cbn [get_or raise]; discriminate).
    cbn [get_or ret]. destruct (String.eqb _ _); [|apply IH].
    unfold bind at 1. cbn [get get_or ret]. intros H.
    apply validate_team_id_returned in H as (-> & H & _). exact H.
Qed.

Lemma find_team_frame team_name teams :
  forall w,
    sent (snd (find_team py_repr team_name teams w)) = sent w
    /\ pending (snd (find_team py_repr team_name teams w)) = pending w.
Proof.
  induction teams as [|team teams IH]; intros w; [split; reflexivity|].
  cbn [find_team]. unfold bind at 1 3.
  destruct team as [| | | | |items]; try (split; reflexivity).
  cbn [get_or ret]. destruct (String.eqb _ _); [|apply IH].
  unfold bind at 1 2. cbn [get get_or ret]. apply validate_team_id_frame.
Qed.

(** [get_team_id_by_name] by the response it takes, whatever it is. *)
Lemma get_team_id_by_name_cases team_name w :
  let w1 := after_request w (GetTeams team_name 100) in
  get_team_id_by_name py_repr team_name w =
  match pending w with
  | [] => (Starved, set_sent w (sent w ++ [GetTeams team_name 100]))
  | RequestFailed msg :: _ =>
      (SysExit 1,
       set_stdout w1 (stdout w1 ++ [Print ("[ERROR]: Request to PagerDuty failed while fetching teams: " +:+ msg)]))
  | Http status text body :: _ =>
      if negb (status =? 200)
      then (SysExit 1,
            set_stdout w1 (stdout w1 ++ [Print ("[ERROR]: Failed to retrieve teams: " +:+ text)]))
      else match body with
           | None => (Uncaught JSONDecodeError, w1)
           | Some j =>
               match Py.or_else j (JDict []) with
               | JDict items =>
                   match Py.elements (Py.item_or "teams" items (JList [])) with
                   | Some teams => find_team py_repr team_name teams w1
                   | None => (Uncaught TypeError, w1)
                   end
               | _ => (Uncaught AttributeError, w1)
               end
           end
  end.
Proof.
  cbv zeta. unfold get_team_id_by_name, after_request.
  unfold bind at 1. unfold requests_get.
  destruct (pending w) as [|r rest]; [reflexivity|]. cbn [tl].
  destruct r as [msg | status text body]; [reflexivity|].
  destruct (negb (status =? 200)); [reflexivity|].
  destruct body as [j|]; [|reflexivity].
  cbn [response_json]. unfold bind at 1. cbn [ret].
  destruct (Py.or_else j (JDict [])) as [| | | | |items]; try reflexivity.
  unfold bind at 1. cbn [get_or ret]. unfold bind at 1, iterate.
  destruct (Py.elements (Py.item_or "teams" items (JList []))); reflexivity.
Qed.

(** What [get_team_id_by_name] returns went through [validate_team_id]. *)
Lemma get_team_id_by_name_returned team_name w id w' :
  get_team_id_by_name py_repr team_name w = (Returned id, w') ->
  is_pagerduty_team_id id = true.
Proof.
  pose proof (get_team_id_by_name_cases team_name w) as E. cbv zeta in E. rewrite E. clear E.
  intros H.
  destruct (pending w) as [|[msg | status text [j|]] rest];
    cbv beta iota in H; try discriminate H;
    destruct (negb (status =? 200)); try discriminate H.
  destruct (Py.or_else j (JDict [])) as [| | | | |items]; try discriminate H.
  destruct (Py.elements (Py.item_or "teams" items (JList []))) as [teams|]; [|discriminate H].
  apply (find_team_returned team_name teams _ id w' H).
Qed.

(** X5. Whatever the service answers, an identifier [get_team_id_by_name]
    returns is well-formed: it matches the pattern of
    [is_pagerduty_team_id]. *)
Theorem resolver_returns_well_formed_id team_name w id w' :
  get_team_id_by_name py_repr team_name w = (Returned id, w') ->
  is_pagerduty_team_id id = true.
Proof. apply get_team_id_by_name_returned. Qed.

(** X6. Whatever the service answers, [get_team_id_by_name] issues one
    request and no more, the search for the name with limit 100, takes one
    response and writes no file: it reads the first page of the result
    only. *)
Theorem resolver_single_request team_name w :
  sent (snd (get_team_id_by_name py_repr team_name w)) = sent w ++ [GetTeams team_name 100]
  /\ pending (snd (get_team_id_by_name py_repr team_name w)) = tl (pending w)
  /\ files (snd (get_team_id_by_name py_repr team_name w)) = files w.
Proof.
  pose proof (get_team_id_by_name_cases team_name w) as E. cbv zeta in E.
  split; [|split; [|apply get_team_id_by_name_files]];
    rewrite E; clear E;
    destruct (pending w) as [|r rest] eqn:Hp;
    try (cbn [snd pending sent set_sent tl]; rewrite ?Hp; reflexivity);
    destruct r as [msg | status text [j|]];
    try (unfold after_request; cbn [snd pending sent set_sent set_stdout set_pending];
         rewrite ?Hp; reflexivity);
    destruct (negb (status =? 200));
    try (unfold after_request; cbn [snd pending sent set_sent set_stdout set_pending];
         rewrite ?Hp; reflexivity);
    destruct (Py.or_else j (JDict [])) as [| | | | |items];
    try (unfold after_request; cbn [snd pending sent set_sent set_stdout set_pending];
         rewrite ?Hp; reflexivity);
    destruct (Py.elements (Py.item_or "teams" items (JList []))) as [teams|];
    try (unfold after_request; cbn [snd pending sent set_sent set_stdout set_pending];
         rewrite ?Hp; reflexivity).
  - rewrite (proj1 (find_team_frame team_name teams _)). reflexivity.
  - rewrite (proj2 (find_team_frame team_name teams _)).
    unfold after_request. cbn [pending set_pending]. rewrite Hp. reflexivity.
Qed.

(** X7. [get_team_id_by_name] ends the program with status 1 when the
    request fails, with the message of the failure on the terminal; when
    the status is not 200, with the text of the response; and when the
    document of a success response is null, empty or without [teams], with
    the message that the team was not found. *)
Theorem resolver_failures team_name w r rest :
  pending w = r :: rest ->
  let w1 := after_request w (GetTeams team_name 100) in
  (forall msg, r = RequestFailed msg ->
     get_team_id_by_name py_repr team_name w
     = (SysExit 1,
        set_stdout w1 (stdout w1 ++ [Print ("[ERROR]: Request to PagerDuty failed while fetching teams: " +:+ msg)])))
  /\ (forall status text body, r = Http status text body -> status <> 200 ->
        get_team_id_by_name py_repr team_name w
        = (SysExit 1,
           set_stdout w1 (stdout w1 ++ [Print ("[ERROR]: Failed to retrieve teams: " +:+ text)])))
  /\ (forall text j, r = Http 200 text (Some j) ->
        Py.truthy j = false
        \/ (exists items, j = JDict items /\ Py.lookup "teams" items = None) ->
        get_team_id_by_name py_repr team_name w
        = (SysExit 1,
           set_stdout w1 (stdout w1 ++ [Print ("[ERROR]: Team '" +:+ team_name +:+ "' not found.")]))).
Proof.
  intros Hp w1.
  pose proof (get_team_id_by_name_cases team_name w) as E. cbv zeta in E.
  rewrite E, Hp. fold w1. clear E. repeat split.
  - intros msg ->. reflexivity.
  - intros status text body -> Hs. apply Z.eqb_neq in Hs. rewrite Hs. reflexivity.
  - intros text j -> Hj. cbn [Z.eqb Pos.eqb negb].
    assert (E : exists items, Py.or_else j (JDict []) = JDict items
                              /\ Py.lookup "teams" items = None).
    { destruct Hj as [Hj | (items & -> & Hl)].
      - exists []. unfold Py.or_else. rewrite Hj. split; reflexivity.
      - exists items. split; [destruct items; reflexivity | exact Hl]. }
    destruct E as (items & -> & Hl). unfold Py.item_or. rewrite Hl. reflexivity.
Qed.

End ResolveMore.

(** * More on the code: the paginated fetcher *)

Section FetchMore.

Variable py_int_of_str : string -> option Z.
Variables team_id since until : string.

Local Abbreviation loop := (fetch_loop py_int_of_str).
Local Abbreviation fetch := (get_incidents_for_team py_int_of_str team_id since until).
Local Abbreviation start :=
  {| incidents := []; offset := 0; total_count := None;
     fetched_count := 0; printed_progress := false |}.

(** X8. [get_incidents_for_team] checks the identifier before anything
    else: on one that is not well-formed it ends the program with status
    1 after one message, and no request has been sent. *)
Theorem fetch_rejects_ill_formed_id w :
  is_pagerduty_team_id team_id = false ->
  fetch w
  = (SysExit 1,
     set_stdout w (stdout w ++ [Print ("[ERROR]: Resolved team id '" +:+ team_id
                                       +:+ "' is invalid.")]))
  /\ sent (snd (fetch w)) = sent w.
Proof.
  intros Hid.
  assert (E : fetch w
              = (SysExit 1,
                 set_stdout w (stdout w ++ [Print ("[ERROR]: Resolved team id '" +:+ team_id
                                                   +:+ "' is invalid.")]))).
  { unfold get_incidents_for_team. unfold bind at 1. unfold validate_team_id.
    rewrite Hid, orb_true_r. reflexivity. }
  rewrite E. split; reflexivity.
Qed.

Lemma page_requests_one o :
  [GetIncidents team_id since until 100 o "true"] = page_requests team_id since until o 1.
Proof. unfold page_requests. cbn [seq map]. repeat f_equal. lia. Qed.

(** The requests of the loop, whatever the responses and however it ends:
    consecutive pages, one response taken for each. *)
Lemma fetch_loop_requests fuel :
  forall st w,
    exists k,
      sent (snd (loop fuel team_id since until st w))
      = sent w ++ page_requests team_id since until (offset st) k
      /\ pending (snd (loop fuel team_id since until st w)) = skipn k (pending w).
Proof.
  induction fuel as [|fuel IH]; intros st w.
  - exists 0%nat. cbn [fetch_loop snd page_requests seq map skipn].
    rewrite app_nil_r. split; reflexivity.
  - destruct (pending w) as [|r rs] eqn:Hp.
    + exists 1%nat. rewrite (fetch_loop_starved py_int_of_str team_id since until fuel st w Hp).
      cbn [snd sent pending set_sent]. rewrite Hp, <- page_requests_one. split; reflexivity.
    + destruct (fetch_loop_turn py_int_of_str team_id since until fuel st w r rs Hp)
        as (w1 & Hrun & Hp1 & Hs1 & _).
      destruct (page_view r) as [[page more] | c | e |].
      * destruct Hrun as (tc & fc & pp & Hrun). rewrite Hrun. destruct more.
        -- destruct (IH {| incidents := incidents st ++ page; offset := offset st + 100;
                           total_count := tc; fetched_count := fc;
                           printed_progress := pp |} w1) as (k & Hk & Hq).
           exists (S k). rewrite Hk, Hq, Hs1, Hp1. cbn [offset skipn].
           rewrite <- app_assoc. cbn [app].
           rewrite (page_requests_succ team_id since until). split; reflexivity.
        -- exists 1%nat. cbn [snd skipn]. rewrite Hs1, Hp1, <- page_requests_one.
           split; reflexivity.
      * exists 1%nat. rewrite Hrun. cbn [snd skipn]. rewrite Hs1, Hp1, <- page_requests_one.
        split; reflexivity.
      * exists 1%nat. rewrite Hrun. cbn [snd skipn]. rewrite Hs1, Hp1, <- page_requests_one.
        split; reflexivity.
      * destruct Hrun.
Qed.

(** X9. Whatever the service answers and however the fetch ends,
    [get_incidents_for_team] has asked for consecutive pages and nothing
    else: its requests are those for the offsets 0, 100, ..., 100 (k - 1),
    in this order, all with limit 100 and the same team and window, and it
    has taken one response for each. *)
Theorem fetch_requests_are_consecutive_pages w :
  exists k,
    sent (snd (fetch w)) = sent w ++ page_requests team_id since until 0 k
    /\ pending (snd (fetch w)) = skipn k (pending w).
Proof.
  destruct (is_pagerduty_team_id team_id) eqn:Hid.
  - destruct (loop (S (length (pending w))) team_id since until start w) as [o v] eqn:Hrun.
    destruct (get_incidents_by_loop py_int_of_str team_id since until w o v Hid Hrun)
      as (v' & Hv & Hs & _ & Hp).
    destruct (fetch_loop_requests (S (length (pending w))) start w) as (k & Hk & Hq).
    rewrite Hrun in Hk, Hq. cbn [snd offset] in Hk, Hq.
    exists k. rewrite Hv. cbn [snd]. rewrite Hs, Hp, Hk, Hq. split; reflexivity.
  - destruct (get_incidents_bad_id py_int_of_str team_id since until w Hid)
      as (v & Hv & Hs & _ & Hp).
    exists 0%nat. rewrite Hv. cbn [snd page_requests seq map skipn].
    rewrite Hs, Hp, app_nil_r. split; reflexivity.
Qed.




End FetchMore.

(** * More on the code: the resolution enricher *)

Section EnrichMore.

Variable py_repr : json -> string.

Local Abbreviation scan := (scan_log_entries py_repr).
Local Abbreviation enrich := (get_incident_resolve_metadata py_repr).



(** The scan leaves the world as it is and never ends the program. *)
Lemma scan_frame entries :
  forall w, exists o, scan entries w = (o, w) /\ is_sys_exit o = false.
Proof.
  induction entries as [|entry entries IH]; intros w; [eexists; split; reflexivity|].
  cbn [scan_log_entries]. unfold bind at 1.
  destruct entry as [| | | | |items]; try (eexists; split; reflexivity).
  cbn [get get_or ret].
  destruct (Py.eq_str (Py.item_or "type" items JNull) "resolve_log_entry"); [|apply IH].
  unfold bind at 1. cbn [get get_or ret].
  destruct (Py.or_else (Py.item_or "agent" items JNull) (JDict [])) as [| | | | |agent];
    try (eexists; split; reflexivity).
  unfold bind at 1. cbn [get get_or ret].
  destruct (Py.truthy (Py.item_or "summary" agent JNull));
    unfold bind; cbn [get get_or ret raise];
    (destruct (Py.or_else (Py.item_or "channel" items JNull) (JDict [])) as [| | | | |channel];
     try (eexists; split; reflexivity);
     cbn [get get_or ret];
     destruct (Py.truthy (Py.item_or "summary" channel JNull));
     try (eexists; split; reflexivity);
     destruct (Py.truthy (Py.item_or "type" channel JNull)); eexists; split; reflexivity).
Qed.

(** X13. Whatever the service answers, [get_incident_resolve_metadata]
    issues one request, the one for the log entries of the incident,
    takes one response, prints nothing, writes no file and never ends the
    program: it returns, or an exception leaves it. *)
Theorem enrich_one_request_no_exit id w :
  sent (snd (enrich id w)) = sent w ++ [log_entries_request id]
  /\ pending (snd (enrich id w)) = tl (pending w)
  /\ stdout (snd (enrich id w)) = stdout w
  /\ files (snd (enrich id w)) = files w
  /\ is_sys_exit (fst (enrich id w)) = false.
Proof.
  assert (H : exists o v,
            enrich id w = (o, v)
            /\ sent v = sent w ++ [log_entries_request id]
            /\ pending v = tl (pending w)
            /\ stdout v = stdout w /\ files v = files w
            /\ is_sys_exit o = false).
  { unfold get_incident_resolve_metadata, bind at 1, requests_get.
    destruct (pending w) as [|r rest] eqn:Hp.
    { eexists _, _. split; [reflexivity|]. cbn [sent pending stdout files set_sent tl].
      rewrite Hp. repeat split. }
    cbn [tl].
    destruct r as [msg | status text body]; [eexists _, _; repeat split|].
    destruct (negb (status =? 200)); [eexists _, _; repeat split|].
    destruct body as [j|]; [|eexists _, _; repeat split].
    cbn [response_json]. unfold bind at 1. cbn [ret].
    destruct (Py.or_else j (JDict [])) as [| | | | |items]; try (eexists _, _; repeat split; fail).
    unfold bind at 1. cbn [get_or ret]. unfold bind at 1, iterate.
    destruct (Py.elements (Py.item_or "log_entries" items (JList []))) as [entries|];
      [|eexists _, _; repeat split].
    cbn [ret].
    destruct (scan_frame entries
                (set_pending (set_sent w (sent w ++ [log_entries_request id])) rest))
      as (o & Hscan & Hexit).
    exists o, (set_pending (set_sent w (sent w ++ [log_entries_request id])) rest).
    split; [exact Hscan|]. repeat split. exact Hexit. }
  destruct H as (o & v & -> & Hs & Hp & Ho & Hf & Hexit). repeat split; assumption.
Qed.

End EnrichMore.

(** * More on the code: the tabular exporter *)

Section ExportMore.

Variable py_repr : json -> string.

Local Abbreviation enrich := (get_incident_resolve_metadata py_repr).

Lemma keeps_files_bind {A B} (m : M A) (f : A -> M B) :
  keeps_files m -> (forall a, keeps_files (f a)) -> keeps_files (bind m f).
Proof.
  intros Hm Hf w. unfold bind. specialize (Hm w).
  destruct (m w) as [[a|c|e|] w1]; cbn [snd] in *; try exact Hm.
  rewrite (Hf a w1). exact Hm.
Qed.

Lemma keeps_files_ret {A} (a : A) : keeps_files (ret a).
Proof. intros w. reflexivity. Qed.

Lemma keeps_files_get_or d k default : keeps_files (get_or d k default).
Proof. intros w. destruct d; reflexivity. Qed.

Lemma keeps_files_get d k : keeps_files (get d k).
Proof. apply keeps_files_get_or. Qed.

Lemma keeps_files_emit o : keeps_files (emit o).
Proof. intros w. reflexivity. Qed.

Lemma keeps_files_iterate j : keeps_files (iterate j).
Proof. intros w. unfold iterate. destruct (Py.elements j); reflexivity. Qed.

Lemma keeps_files_requests_get req : keeps_files (requests_get req).
Proof. intros w. unfold requests_get. destruct (pending w); reflexivity. Qed.

Lemma keeps_files_response_json r : keeps_files (response_json r).
Proof. intros w. destruct r as [|? ? []]; reflexivity. Qed.

Lemma keeps_files_scan entries : keeps_files (scan_log_entries py_repr entries).
Proof.
  intros w. destruct (scan_frame py_repr entries w) as (o & -> & _). reflexivity.
Qed.

Lemma keeps_files_enrich id : keeps_files (enrich id).
Proof.
  unfold get_incident_resolve_metadata.
  apply keeps_files_bind; [apply keeps_files_requests_get|]. intros r.
  destruct r as [msg | status text body]; [apply keeps_files_ret|].
  destruct (negb (status =? 200)); [apply keeps_files_ret|].
  apply keeps_files_bind; [apply keeps_files_response_json|]. intros j.
  apply keeps_files_bind; [apply keeps_files_get_or|]. intros entries.
  apply keeps_files_bind; [apply keeps_files_iterate|]. intros l.
  apply keeps_files_scan.
Qed.

Lemma keeps_files_incident_row inc : keeps_files (incident_row py_repr inc).
Proof.
  unfold incident_row, resolved_by_of.
  repeat first
    [ apply keeps_files_ret
    | apply keeps_files_get
    | apply keeps_files_get_or
    | apply keeps_files_enrich
    | apply keeps_files_bind; [|intros ?]
    | match goal with |- keeps_files (if ?b then _ else _) => destruct b end ].
Qed.

Lemma writes_only_of_keeps {A} path (m : M A) : keeps_files m -> writes_only path m.
Proof. intros H w other _. rewrite (H w). reflexivity. Qed.

Lemma writes_only_bind {A B} path (m : M A) (f : A -> M B) :
  writes_only path m -> (forall a, writes_only path (f a)) -> writes_only path (bind m f).
Proof.
  intros Hm Hf w other Hne. unfold bind. specialize (Hm w other Hne).
  destruct (m w) as [[a|c|e|] w1]; cbn [snd] in *; try exact Hm.
  rewrite (Hf a w1 other Hne). exact Hm.
Qed.

Lemma writes_only_writerow path cells : writes_only path (writerow path cells).
Proof.
  intros w other Hne. unfold writerow. cbn [snd files set_files].
  apply lookup_insert_ne. congruence.
Qed.

Lemma writes_only_open_w path : writes_only path (open_w path).
Proof.
  intros w other Hne. unfold open_w. destruct (writable w path); [|reflexivity].
  cbn [snd files set_files]. apply lookup_insert_ne. congruence.
Qed.

Lemma writes_only_write_rows path total_items incidents :
  forall processed printed,
    writes_only path (write_rows py_repr path total_items incidents processed printed).
Proof.
  induction incidents as [|inc incidents IH]; intros processed printed.
  - apply writes_only_of_keeps, keeps_files_ret.
  - cbn [write_rows].
    apply writes_only_bind; [apply writes_only_of_keeps, keeps_files_incident_row|]. intros cells.
    apply writes_only_bind; [apply writes_only_writerow|]. intros _.
    destruct (negb (total_items =? 0)); [|apply IH].
    apply writes_only_bind; [apply writes_only_of_keeps, keeps_files_emit|]. intros _.
    apply IH.
Qed.

Lemma writes_only_export incidents team_name filename :
  writes_only (csv_filename team_name filename)
    (write_incidents_to_csv py_repr incidents team_name filename).
Proof.
  unfold write_incidents_to_csv. cbv zeta.
  apply writes_only_bind; [apply writes_only_open_w|]. intros _.
  apply writes_only_bind; [apply writes_only_writerow|]. intros _.
  apply writes_only_bind; [apply writes_only_write_rows|]. intros printed.
  apply writes_only_bind;
    [destruct printed; apply writes_only_of_keeps; [apply keeps_files_emit | apply keeps_files_ret]|].
  intros _. apply writes_only_of_keeps, keeps_files_emit.
Qed.

(** X14. However the export ends, be it with an exception half-way,
    [write_incidents_to_csv] changes no file but the one at its output
    path. *)
Theorem export_writes_one_file incidents team_name filename w other :
  other <> csv_filename team_name filename ->
  files (snd (write_incidents_to_csv py_repr incidents team_name filename w)) !! other
  = files w !! other.
Proof. apply writes_only_export. Qed.

(** X15. When the output path cannot be opened for writing,
    [write_incidents_to_csv] ends with the [OSError] of [open] before
    anything else: no request is sent, nothing is printed, no file is
    created. *)
Theorem export_unopenable_path incidents team_name filename w :
  writable w (csv_filename team_name filename) = false ->
  write_incidents_to_csv py_repr incidents team_name filename w = (Uncaught OSError, w).
Proof.
  intros H. unfold write_incidents_to_csv. cbv zeta. unfold bind at 1, open_w.
  rewrite H. reflexivity.
Qed.

(** The loop of the exporter over the incidents it gets through: their
    rows are appended, one response is taken and one request sent for each
    resolved one, and the loop goes on with what is left. *)
Lemma write_rows_prefix path total_items good :
  forall tail rs rest w processed printed content,
    forallb incident_well_formed good = true ->
    forallb log_response_well_formed rs = true ->
    length rs = length (List.filter incident_is_resolved good) ->
    pending w = rs ++ rest ->
    files w !! path = Some content ->
    exists rows printed' w',
      write_rows py_repr path total_items (good ++ tail) processed printed w
      = write_rows py_repr path total_items tail
          (processed + Z.of_nat (length good)) printed' w'
      /\ Forall2 row_of_incident good rows
      /\ files w' = <[path := content ++ rows]> (files w)
      /\ pending w' = rest
      /\ sent w' = sent w ++ enrichment_requests py_repr good.
Proof.
  induction good as [|inc good IH];
    intros tail rs rest w processed printed content Hwf Hrs Hlen Hp Hfile.
  - destruct rs; [|discriminate Hlen].
    exists [], printed, w. cbn [app length Z.of_nat]. rewrite Z.add_0_r. repeat split.
    + constructor.
    + rewrite app_nil_r. symmetry. apply insert_id. exact Hfile.
    + exact Hp.
    + unfold enrichment_requests. cbn [List.filter map]. rewrite app_nil_r. reflexivity.
  - cbn [forallb] in Hwf. apply andb_true_iff in Hwf as [Hinc Hwf].
    unfold enrichment_requests. cbn [List.filter] in Hlen |- *.
    assert (Hrow : exists cell w1 rs1,
              incident_row py_repr inc w = (Returned (incident_cells inc ++ [cell]), w1)
              /\ files w1 = files w /\ pending w1 = rs1 ++ rest
              /\ forallb log_response_well_formed rs1 = true
              /\ length rs1 = length (List.filter incident_is_resolved good)
              /\ sent w1 = sent w ++ (if incident_is_resolved inc
                                      then [log_entries_request (py_str py_repr (incident_id inc))]
                                      else [])).
    { destruct (incident_is_resolved inc) eqn:Hres.
      - destruct rs as [|r rs]; [discriminate Hlen|].
        cbn [forallb] in Hrs. apply andb_true_iff in Hrs as [Hr Hrs].
        destruct (incident_row_resolved py_repr inc w r (rs ++ rest) Hinc Hres Hp Hr)
          as (cell & Hrow).
        exists cell, (after_request w (log_entries_request (py_str py_repr (incident_id inc)))), rs.
        split; [exact Hrow|]. unfold after_request. cbn [files pending sent set_pending set_sent].
        rewrite Hp. cbn [tl]. repeat split; try assumption.
        cbn [length] in Hlen. lia.
      - exists (JStr ""), w, rs. split; [apply incident_row_unresolved; assumption|].
        rewrite app_nil_r. repeat split; assumption. }
    destruct Hrow as (cell & w1 & rs1 & Hrow & Hf1 & Hp1 & Hrs1 & Hlen1 & Hs1).
    cbn [app write_rows]. unfold bind at 1. rewrite Hrow.
    unfold bind at 1. unfold writerow at 1.
    set (w2 := set_files w1 _).
    assert (Hf2 : files w2 = <[path := content ++ [incident_cells inc ++ [cell]]]> (files w)).
    { subst w2. cbn [files set_files]. rewrite Hf1, Hfile. reflexivity. }
    assert (Hcount : processed + 1 + Z.of_nat (length good)
                     = processed + Z.of_nat (length (inc :: good)))
      by (cbn [length]; lia).
    assert (Hreq : forall l,
              (sent w ++ (if incident_is_resolved inc
                          then [log_entries_request (py_str py_repr (incident_id inc))]
                          else [])) ++ enrichment_requests py_repr l
              = sent w ++ map (fun inc => log_entries_request (py_str py_repr (incident_id inc)))
                            (if incident_is_resolved inc
                             then inc :: List.filter incident_is_resolved l
                             else List.filter incident_is_resolved l)).
    { intros l. rewrite <- app_assoc. unfold enrichment_requests.
      destruct (incident_is_resolved inc); reflexivity. }
    destruct (negb (total_items =? 0)).
    + unfold bind at 1, emit at 1.
      set (w3 := set_stdout w2 _).
      destruct (IH tail rs1 rest w3 (processed + 1) true
                  (content ++ [incident_cells inc ++ [cell]]) Hwf Hrs1 Hlen1)
        as (rows & pp & w' & Hrun & Hrows & Hfiles & Hpend & Hsent).
      { exact Hp1. }
      { subst w3. cbn [files set_stdout]. rewrite Hf2. apply lookup_insert_eq. }
      exists ((incident_cells inc ++ [cell]) :: rows), pp, w'.
      rewrite <- Hcount. split; [exact Hrun|].
      split; [constructor; [eexists; reflexivity | exact Hrows]|].
      split; [|split; [exact Hpend|]].
      * rewrite Hfiles. subst w3. cbn [files set_stdout]. rewrite Hf2, insert_insert_eq.
        rewrite <- app_assoc. reflexivity.
      * rewrite Hsent. subst w3 w2. cbn [sent set_stdout set_files]. rewrite Hs1. apply Hreq.
    + destruct (IH tail rs1 rest w2 (processed + 1) printed
                  (content ++ [incident_cells inc ++ [cell]]) Hwf Hrs1 Hlen1)
        as (rows & pp & w' & Hrun & Hrows & Hfiles & Hpend & Hsent).
      { exact Hp1. }
      { rewrite Hf2. apply lookup_insert_eq. }
      exists ((incident_cells inc ++ [cell]) :: rows), pp, w'.
      rewrite <- Hcount. split; [exact Hrun|].
      split; [constructor; [eexists; reflexivity | exact Hrows]|].
      split; [|split; [exact Hpend|]].
      * rewrite Hfiles, Hf2, insert_insert_eq. rewrite <- app_assoc. reflexivity.
      * rewrite Hsent. subst w2. cbn [sent set_files]. rewrite Hs1. apply Hreq.
Qed.

(** [write_incidents_to_csv] up to its loop. *)
Lemma export_opened incidents team_name filename w :
  writable w (csv_filename team_name filename) = true ->
  exists w1,
    write_incidents_to_csv py_repr incidents team_name filename w
    = bind (write_rows py_repr (csv_filename team_name filename)
              (Z.of_nat (length incidents)) incidents 0 false)
        (fun printed_progress =>
           bind (if printed_progress then emit (Write (String "010" "")) else ret tt)
             (fun _ =>
                emit (Print ("[INFO] " +:+ PyStr.of_Z (Z.of_nat (length incidents))
                             +:+ " incidents exported to "
                             +:+ csv_filename team_name filename)))) w1
    /\ files w1 !! csv_filename team_name filename = Some [csv_headers]
    /\ pending w1 = pending w /\ sent w1 = sent w.
Proof.
  intros Hopen. unfold write_incidents_to_csv. cbv zeta.
  unfold bind at 1. unfold open_w at 1. rewrite Hopen.
  unfold bind at 1. unfold writerow at 1.
  eexists. split; [reflexivity|].
  cbn [files pending sent set_files]. rewrite !lookup_insert_eq. repeat split.
Qed.

(** X16. Over well-formed incidents and responses, the exporter sends one
    request for the log entries of each resolved incident, in the order
    of the incidents, and no other request: none for an incident that is
    not resolved. *)
Theorem export_requests_per_resolved_incident incidents team_name filename rs rest w :
  forallb incident_well_formed incidents = true ->
  forallb log_response_well_formed rs = true ->
  length rs = length (List.filter incident_is_resolved incidents) ->
  pending w = rs ++ rest ->
  writable w (csv_filename team_name filename) = true ->
  sent (snd (write_incidents_to_csv py_repr incidents team_name filename w))
  = sent w ++ map (fun inc => log_entries_request (py_str py_repr (incident_id inc)))
                  (List.filter incident_is_resolved incidents).
Proof.
  intros Hwf Hrs Hlen Hp Hopen.
  destruct (export_opened incidents team_name filename w Hopen) as (w1 & -> & Hf1 & Hp1 & Hs1).
  rewrite <- Hp1 in Hp.
  destruct (write_rows_prefix (csv_filename team_name filename) (Z.of_nat (length incidents))
              incidents [] rs rest w1 0 false [csv_headers] Hwf Hrs Hlen Hp Hf1)
    as (rows & pp & w' & Hrun & _ & _ & _ & Hsent).
  rewrite app_nil_r in Hrun. cbn [write_rows] in Hrun.
  unfold bind at 1. rewrite Hrun. unfold ret at 1.
  fold (enrichment_requests py_repr incidents). rewrite <- Hs1, <- Hsent.
  destruct pp; reflexivity.
Qed.

Lemma incident_row_undecodable inc w text rest :
  incident_well_formed inc = true ->
  incident_is_resolved inc = true ->
  pending w = Http 200 text None :: rest ->
  exists w1,
    incident_row py_repr inc w = (Uncaught JSONDecodeError, w1)
    /\ files w1 = files w.
Proof.
  destruct inc as [| | | | |items]; try discriminate.
  cbn [incident_well_formed incident_is_resolved]. intros Hwf Hres Hp.
  apply andb_true_iff in Hwf as [Hs _]. unfold object_or_falsy in Hs.
  unfold incident_row, resolved_by_of.
  unfold bind at 1. cbn [get get_or ret].
  destruct (Py.or_else (Py.item_or "service" items JNull) (JDict [])) as [| | | | |service];
    try discriminate Hs.
  unfold bind at 1. cbn [get get_or ret].
  destruct (Py.truthy (Py.item_or "summary" service JNull));
    unfold bind; cbn [get get_or ret]; rewrite Hres; cbn [get_or ret];
    unfold get_incident_resolve_metadata, bind, requests_get; rewrite Hp;
    eexists; split; reflexivity.
Qed.

(** X17. An exception of the enricher stops the export half-way and
    leaves a truncated file: when the response for a resolved incident has
    status 200 and a body that is no JSON document, [JSONDecodeError]
    leaves [write_incidents_to_csv], and the file holds the header row
    and the rows of the incidents before that one only. *)
Theorem export_truncated_on_exception good bad later team_name filename rs text rest w :
  forallb incident_well_formed (good ++ [bad]) = true ->
  incident_is_resolved bad = true ->
  forallb log_response_well_formed rs = true ->
  length rs = length (List.filter incident_is_resolved good) ->
  pending w = rs ++ Http 200 text None :: rest ->
  writable w (csv_filename team_name filename) = true ->
  exists rows w',
    write_incidents_to_csv py_repr (good ++ bad :: later) team_name filename w
    = (Uncaught JSONDecodeError, w')
    /\ files w' !! csv_filename team_name filename = Some (csv_headers :: rows)
    /\ Forall2 row_of_incident good rows.
Proof.
  intros Hwf Hres Hrs Hlen Hp Hopen.
  rewrite forallb_app in Hwf. apply andb_true_iff in Hwf as [Hgood Hbad].
  cbn [forallb] in Hbad. rewrite andb_true_r in Hbad.
  destruct (export_opened (good ++ bad :: later) team_name filename w Hopen)
    as (w1 & -> & Hf1 & Hp1 & _).
  rewrite <- Hp1 in Hp.
  destruct (write_rows_prefix (csv_filename team_name filename)
              (Z.of_nat (length (good ++ bad :: later)))
              good (bad :: later) rs _ w1 0 false [csv_headers] Hgood Hrs Hlen Hp Hf1)
    as (rows & pp & w2 & Hrun & Hrows & Hf2 & Hp2 & _).
  destruct (incident_row_undecodable bad w2 text rest Hbad Hres Hp2) as (w3 & Hrow & Hf3).
  exists rows, w3. unfold bind at 1. rewrite Hrun.
  cbn [write_rows]. unfold bind at 1. rewrite Hrow.
  split; [reflexivity|]. split; [|exact Hrows].
  rewrite Hf3, Hf2. apply lookup_insert_eq.
Qed.

End ExportMore.

(** * More on the code: timestamps and the pipeline *)

Lemma seconds_of_inj o1 h1 m1 s1 o2 h2 m2 s2 :
  0 <= h1 < 24 -> 0 <= m1 < 60 -> 0 <= s1 < 60 ->
  0 <= h2 < 24 -> 0 <= m2 < 60 -> 0 <= s2 < 60 ->
  Iso8601.seconds_of o1 h1 m1 s1 = Iso8601.seconds_of o2 h2 m2 s2 ->
  o1 = o2 /\ h1 = h2 /\ m1 = m2 /\ s1 = s2.
Proof. unfold Iso8601.seconds_of. lia. Qed.

(** X18. Two valid datetimes get the same text from [to_iso8601_utc]
    exactly when they lie in the same second of the same day: the
    microseconds are dropped, not rounded, and nothing else is lost. *)
Theorem timestamp_identifies_second a b :
  Datetime.valid a -> Datetime.valid b ->
  (to_iso8601_utc a = to_iso8601_utc b
   <-> Datetime.ordinal a = Datetime.ordinal b /\ Datetime.hour a = Datetime.hour b
       /\ Datetime.minute a = Datetime.minute b /\ Datetime.second a = Datetime.second b).
Proof.
  intros Ha Hb. split.
  - intros E. apply (f_equal Iso8601.parse) in E.
    rewrite !parse_to_iso8601_utc in E by assumption.
    injection E as E.
    destruct Ha as (_ & Ha1 & Ha2 & Ha3 & _), Hb as (_ & Hb1 & Hb2 & Hb3 & _).
    apply seconds_of_inj in E; assumption.
  - intros (Eo & Eh & Em & Es). rewrite !to_iso8601_utc_shape. unfold iso_seconds.
    rewrite Eo, Eh, Em, Es. reflexivity.
Qed.

Lemma take_digits_length k :
  forall acc s v rest,
    Iso8601.take_digits k acc s = Some (v, rest) ->
    String.length s = (k + String.length rest)%nat.
Proof.
  induction k as [|k IH]; intros acc s v rest H.
  - cbn [Iso8601.take_digits] in H. injection H as _ ->. reflexivity.
  - destruct s as [|c s]; [discriminate H|].
    cbn [Iso8601.take_digits] in H.
    destruct (Iso8601.digit_value c); [|discriminate H].
    cbn [String.length]. rewrite (IH _ _ _ _ H). reflexivity.
Qed.

Lemma zpad_ok_length width n :
  Iso8601.zpad_ok width n = true -> String.length (Datetime.zpad width n) = width.
Proof.
  unfold Iso8601.zpad_ok. intros H.
  destruct (Iso8601.take_digits width 0 (Datetime.zpad width n)) as [[v [|c s]]|] eqn:E;
    try discriminate H.
  rewrite (take_digits_length _ _ _ _ _ E). cbn [String.length]. lia.
Qed.

Lemma zpad2_length n : 0 <= n < 100 -> String.length (Datetime.zpad 2 n) = 2%nat.
Proof.
  intros Hn. apply zpad_ok_length.
  apply (range_forallb (Iso8601.zpad_ok 2) _ 0 zpad2_checked n).
  rewrite Z2Nat.id; lia.
Qed.

Lemma zpad4_length n : 0 <= n < 10000 -> String.length (Datetime.zpad 4 n) = 4%nat.
Proof.
  intros Hn. apply zpad_ok_length.
  apply (range_forallb (Iso8601.zpad_ok 4) _ 0 zpad4_checked n).
  rewrite Z2Nat.id; lia.
Qed.

Lemma take_append (s rest : string) : Py.take (String.length s) (s +:+ rest) = s.
Proof.
  induction s as [|c s IH].
  - destruct rest; reflexivity.
  - change (String c s +:+ rest) with (String c (s +:+ rest)).
    cbn [String.length Py.take]. rewrite IH. reflexivity.
Qed.

(** X19. The text [to_iso8601_utc] gives for a valid datetime has 20
    characters, and its first ten, which [main] shows in its announcement
    as [since[:10]] and [until[:10]], are the calendar date
    [YYYY-MM-DD]. *)
Theorem timestamp_date_prefix dt :
  Datetime.valid dt ->
  String.length (to_iso8601_utc dt) = 20%nat
  /\ Py.take 10 (to_iso8601_utc dt) = iso_date dt.
Proof.
  intros (Hord & Hh & Hm & Hs & _).
  destruct (ord2ymd_ymd2ord (Datetime.ordinal dt) Hord) as (y & m & d & E & Hy & Hmo & Hd & _).
  rewrite to_iso8601_utc_shape. unfold iso_seconds, iso_date. rewrite E.
  assert (Ldate : String.length
                    (Datetime.zpad 4 y +:+ "-" +:+ Datetime.zpad 2 m +:+ "-" +:+ Datetime.zpad 2 d)
                  = 10%nat).
  { rewrite !length_append, zpad4_length, !zpad2_length by lia. reflexivity. }
  split.
  - rewrite !length_append, zpad4_length, !zpad2_length by lia. reflexivity.
  - set (date := Datetime.zpad 4 y +:+ "-" +:+ Datetime.zpad 2 m +:+ "-" +:+ Datetime.zpad 2 d)
      in *.
    set (time := "T" +:+ Datetime.zpad 2 (Datetime.hour dt) +:+ ":"
                 +:+ Datetime.zpad 2 (Datetime.minute dt) +:+ ":"
                 +:+ Datetime.zpad 2 (Datetime.second dt) +:+ "Z").
    transitivity (Py.take 10 (date +:+ time)).
    + f_equal. subst date time. rewrite !append_assoc. reflexivity.
    + rewrite <- Ldate. apply take_append.
Qed.

Lemma lstrip_all p s : PyStr.all_chars p s = true -> PyStr.lstrip p s = "".
Proof.
  induction s as [|c s IH]; [reflexivity|].
  cbn [PyStr.all_chars PyStr.lstrip]. intros H. apply andb_true_iff in H as [Hc Hs].
  rewrite Hc. apply IH, Hs.
Qed.

Section MainMore.

Variable py_repr : json -> string.
Variable py_int_of_str : string -> option Z.

(** [main_setup] from the team name on. *)
Lemma main_setup_named token args w :
  PyStr.is_empty (default "" token) = false ->
  main_setup py_repr token args w
  = bind (read_team_name args)
      (fun team_name =>
         if PyStr.is_empty team_name
         then bind (emit (Print "[ERROR]: Team name cannot be empty.")) (fun _ => sys_exit 1)
         else
           bind (if is_pagerduty_team_id team_name then ret team_name
                 else get_team_id_by_name py_repr team_name)
             (fun team_id =>
                bind datetime_now
                  (fun now_utc =>
                     bind (time_window now_utc (arg_days args))
                       (fun window =>
                          let '(lookback_days, since, until) := window in
                          bind (emit (fetch_announcement team_name lookback_days since until))
                            (fun _ => ret (team_name, team_id, lookback_days, since, until))))))
      w.
Proof. intros H. unfold main_setup. rewrite H. reflexivity. Qed.

(** What [main_setup] returns: the team name is not empty, the identifier
    is the name itself or came from the resolver, and the window is the one
    of the clock. *)
Lemma main_setup_returned token args w team_name team_id lookback_days since until w1 :
  main_setup py_repr token args w
  = (Returned (team_name, team_id, lookback_days, since, until), w1) ->
  exists v v1,
    read_team_name args w = (Returned team_name, v)
    /\ PyStr.is_empty team_name = false
    /\ (if is_pagerduty_team_id team_name then ret team_name
        else get_team_id_by_name py_repr team_name) v = (Returned team_id, v1)
    /\ time_window (clock v1) (arg_days args) v1 = (Returned (lookback_days, since, until), v1)
    /\ w1 = set_stdout v1 (stdout v1 ++ [fetch_announcement team_name lookback_days since until]).
Proof.
  destruct (PyStr.is_empty (default "" token)) eqn:Htoken.
  - unfold main_setup. rewrite Htoken. discriminate.
  - rewrite (main_setup_named token args w Htoken).
    unfold bind at 1.
    destruct (read_team_name args w) as [[tn|c|e|] v]; try discriminate.
    destruct (PyStr.is_empty tn) eqn:Hempty; [discriminate|].
    unfold bind at 1.
    destruct (if is_pagerduty_team_id tn then _ else _) as [[tid|c|e|] v1] eqn:Hid;
      try discriminate.
    unfold bind at 1, datetime_now. unfold bind at 1.
    destruct (time_window (clock v1) (arg_days args) v1) as [[[[lb s] u]|c|e|] v2] eqn:Hwin;
      try discriminate.
    assert (v2 = v1) as ->.
    { revert Hwin. unfold time_window.
      destruct (Datetime.sub_days (clock v1) (Z.max 1 (arg_days args))); [|discriminate].
      unfold ret. intros H. injection H as _ _ _ ->. reflexivity. }
    unfold bind, emit, ret. intros H. injection H as <- <- <- <- <- <-.
    exists v, v1. repeat split; assumption.
Qed.

(** X20. Without the token in the environment, be it unset or empty,
    [main] prints its complaint and exits with status 1 before anything
    else: no prompt, no request, no file. *)
Theorem main_requires_token token args w :
  PyStr.is_empty (default "" token) = true ->
  main py_repr py_int_of_str token args w
  = (SysExit 1,
     set_stdout w (stdout w
                   ++ [Print "[ERROR]: Please set the PAGERDUTY_API_TOKEN environment variable."])).
Proof. intros H. unfold main, main_setup. rewrite H. reflexivity. Qed.

(** X21. With no team name among the arguments, [main] prompts for one,
    and a line of white space only, the empty line included, makes it exit
    with status 1 after its complaint: no request is sent and no file is
    written. *)
Theorem main_blank_team_name token args w line rest :
  PyStr.is_empty (default "" token) = false ->
  PyStr.is_empty (default "" (arg_team_name args)) = true ->
  stdin w = line :: rest ->
  PyStr.all_chars PyStr.is_space line = true ->
  exists w',
    main py_repr py_int_of_str token args w = (SysExit 1, w')
    /\ stdout w' = stdout w ++ [Write "Enter the PagerDuty team name: ";
                                Print "[ERROR]: Team name cannot be empty."]
    /\ stdin w' = rest /\ sent w' = sent w /\ pending w' = pending w /\ files w' = files w.
Proof.
  intros Htoken Hargs Hin Hblank. unfold main. unfold bind at 1.
  rewrite (main_setup_named token args w Htoken).
  unfold bind at 1, read_team_name. rewrite Hargs.
  unfold bind at 1, input. rewrite Hin. cbn [ret].
  unfold PyStr.strip. rewrite (lstrip_all _ _ Hblank). cbn [PyStr.rstrip PyStr.is_empty].
  eexists. split; [reflexivity|].
  cbn [stdout stdin sent pending files set_stdout set_stdin]. rewrite <- app_assoc.
  repeat split.
Qed.

(** X22. The team identifier [main] hands to [get_incidents_for_team] is
    always well-formed, be it the name given or the answer of the
    resolver, so the validation at the head of the fetcher lets it
    through; and the team name is never empty. *)
Theorem main_fetches_well_formed_id token args w team_name team_id lookback_days since until w1 :
  main_setup py_repr token args w
  = (Returned (team_name, team_id, lookback_days, since, until), w1) ->
  is_pagerduty_team_id team_id = true
  /\ validate_team_id team_id w1 = (Returned team_id, w1)
  /\ PyStr.is_empty team_name = false.
Proof.
  intros H. apply main_setup_returned in H as (v & v1 & _ & Hname & Hid & _).
  assert (Hok : is_pagerduty_team_id team_id = true).
  { destruct (is_pagerduty_team_id team_name) eqn:E.
    - unfold ret in Hid. injection Hid as <- _. exact E.
    - apply (get_team_id_by_name_returned py_repr team_name v team_id v1 Hid). }
  split; [exact Hok|]. split; [|exact Hname].
  apply validate_team_id_ok, Hok.
Qed.

Lemma read_team_name_given args name w :
  arg_team_name args = Some name -> PyStr.is_empty name = false ->
  read_team_name args w = (Returned name, w).
Proof.
  intros Hargs Hne. unfold read_team_name. rewrite Hargs. cbn [default from_option id].
  rewrite Hne. reflexivity.
Qed.

(** [main_setup] for a team given by a well-formed identifier. *)
Lemma main_setup_given_id token args w name :
  PyStr.is_empty (default "" token) = false ->
  arg_team_name args = Some name ->
  is_pagerduty_team_id name = true ->
  main_setup py_repr token args w
  = match Datetime.sub_days (clock w) (Z.max 1 (arg_days args)) with
    | Some lookback_utc =>
        (Returned (name, name, Z.max 1 (arg_days args),
                   to_iso8601_utc lookback_utc, to_iso8601_utc (clock w)),
         set_stdout w (stdout w
                       ++ [fetch_announcement name (Z.max 1 (arg_days args))
                             (to_iso8601_utc lookback_utc) (to_iso8601_utc (clock w))]))
    | None => (Uncaught OverflowError, w)
    end.
Proof.
  intros Htoken Hargs Hid.
  assert (Hne : PyStr.is_empty name = false) by (destruct name; [discriminate Hid | reflexivity]).
  rewrite (main_setup_named token args w Htoken).
  unfold bind at 1. rewrite (read_team_name_given args name w Hargs Hne).
  rewrite Hne, Hid. unfold bind at 1. cbn [ret].
  unfold bind at 1, datetime_now. unfold bind at 1, time_window.
  destruct (Datetime.sub_days (clock w) (Z.max 1 (arg_days args))) as [lookback_utc|];
    reflexivity.
Qed.

(** X23. A team given by a well-formed identifier is not looked up:
    [main] sends no request and takes no response before the fetch, and
    fetches with the identifier as it was given. *)
Theorem main_id_skips_team_lookup token args w name :
  arg_team_name args = Some name ->
  is_pagerduty_team_id name = true ->
  sent (snd (main_setup py_repr token args w)) = sent w
  /\ pending (snd (main_setup py_repr token args w)) = pending w
  /\ stdin (snd (main_setup py_repr token args w)) = stdin w
  /\ forall team_name team_id lookback_days since until w1,
       main_setup py_repr token args w
       = (Returned (team_name, team_id, lookback_days, since, until), w1) ->
       team_name = name /\ team_id = name.
Proof.
  intros Hargs Hid.
  assert (Hne : PyStr.is_empty name = false) by (destruct name; [discriminate Hid | reflexivity]).
  destruct (PyStr.is_empty (default "" token)) eqn:Htoken.
  - unfold main_setup. rewrite Htoken.
    split; [reflexivity|]. split; [reflexivity|]. split; [reflexivity|].
    intros; discriminate.
  - rewrite (main_setup_given_id token args w name Htoken Hargs Hid).
    destruct (Datetime.sub_days (clock w) (Z.max 1 (arg_days args))) as [lookback_utc|].
    + split; [reflexivity|]. split; [reflexivity|]. split; [reflexivity|].
      intros team_name team_id lookback_days since until w1 H.
      injection H as <- <- _ _ _ _. split; reflexivity.
    + split; [reflexivity|]. split; [reflexivity|]. split; [reflexivity|].
      intros; discriminate.
Qed.

(** X24. With the team name [name] among the arguments, whatever the
    service answers and however the run ends, [main] creates or changes no
    file but the one at the output path: the one given, or else the default
    one made from [name]. *)
Theorem main_writes_one_file token args w name other :
  arg_team_name args = Some name ->
  PyStr.is_empty name = false ->
  other <> csv_filename name (arg_output args) ->
  files (snd (main py_repr py_int_of_str token args w)) !! other = files w !! other.
Proof.
  intros Hargs Hne Hother. unfold main. unfold bind at 1.
  pose proof (main_setup_files py_repr token args w) as Hf.
  destruct (main_setup py_repr token args w) as [[[[[[tn tid] lb] s] u]|c|e|] w1] eqn:Hsetup;
    cbn [snd] in Hf |- *; try (rewrite Hf; reflexivity).
  apply main_setup_returned in Hsetup as (v & v1 & Hread & _).
  rewrite (read_team_name_given args name w Hargs Hne) in Hread. injection Hread as <- _.
  unfold bind at 1.
  pose proof (get_incidents_files py_int_of_str tid s u w1) as Hf1.
  destruct (get_incidents_for_team py_int_of_str tid s u w1) as [[incidents|c|e|] w2];
    cbn [snd] in Hf1 |- *; try (rewrite Hf1, Hf; reflexivity).
  rewrite <- Hf, <- Hf1.
  destruct incidents as [|inc incidents]; [reflexivity|].
  cbn [main_export]. apply writes_only_export. exact Hother.
Qed.

End MainMore.

(** * The further properties on the sample data *)

Lemma resolver_returns_well_formed_id_witness :
  is_pagerduty_team_id "PABC123" = true.
Proof.
  apply (resolver_returns_well_formed_id Sample.repr "observability"
           (Sample.world_of [Sample.teams_page]) "PABC123"
           (snd (get_team_id_by_name Sample.repr "observability"
                   (Sample.world_of [Sample.teams_page])))).
  reflexivity.
Defined.

Lemma resolver_failures_witness :
  fst (get_team_id_by_name Sample.repr "SRE" (Sample.world_of [RequestFailed "timed out"]))
  = SysExit 1
  /\ fst (get_team_id_by_name Sample.repr "SRE" (Sample.world_of [Http 401 "Unauthorized" None]))
     = SysExit 1
  /\ fst (get_team_id_by_name Sample.repr "SRE" (Sample.world_of [Sample.ok (JDict [])]))
     = SysExit 1.
Proof.
  split; [|split].
  - destruct (resolver_failures Sample.repr "SRE" (Sample.world_of [RequestFailed "timed out"])
                (RequestFailed "timed out") [] eq_refl) as (H & _ & _).
    rewrite (H "timed out" eq_refl). reflexivity.
  - destruct (resolver_failures Sample.repr "SRE" (Sample.world_of [Http 401 "Unauthorized" None])
                (Http 401 "Unauthorized" None) [] eq_refl) as (_ & H & _).
    rewrite (H 401 "Unauthorized" None eq_refl ltac:(lia)). reflexivity.
  - destruct (resolver_failures Sample.repr "SRE" (Sample.world_of [Sample.ok (JDict [])])
                (Sample.ok (JDict [])) [] eq_refl) as (_ & _ & H).
    rewrite (H "" (JDict []) eq_refl (or_introl eq_refl)). reflexivity.
Defined.

Lemma fetch_rejects_ill_formed_id_witness :
  is_pagerduty_team_id "P1" = false
  /\ get_incidents_for_team Sample.int_of_str "P1" "s" "u" (Sample.world_of [Sample.last_page])
     = (SysExit 1,
        set_stdout (Sample.world_of [Sample.last_page])
          (stdout (Sample.world_of [Sample.last_page])
           ++ [Print ("[ERROR]: Resolved team id '" +:+ "P1" +:+ "' is invalid.")]))
  /\ sent (snd (get_incidents_for_team Sample.int_of_str "P1" "s" "u"
                  (Sample.world_of [Sample.last_page])))
     = sent (Sample.world_of [Sample.last_page]).
Proof.
  split; [reflexivity|].
  apply (fetch_rejects_ill_formed_id Sample.int_of_str "P1" "s" "u"
           (Sample.world_of [Sample.last_page])).
  reflexivity.
Defined.




Lemma export_writes_one_file_witness :
  files (snd (write_incidents_to_csv Sample.repr [Sample.open_incident] "Observability" None
                (Sample.world_of []))) !! "notes.txt"
  = files (Sample.world_of []) !! "notes.txt".
Proof.
  apply (export_writes_one_file Sample.repr [Sample.open_incident] "Observability" None
           (Sample.world_of []) "notes.txt").
  cbv. intros H. discriminate H.
Defined.

Lemma export_unopenable_path_witness :
  write_incidents_to_csv Sample.repr [Sample.open_incident] "Observability" None
    MoreSample.read_only_world
  = (Uncaught OSError, MoreSample.read_only_world).
Proof.
  apply (export_unopenable_path Sample.repr [Sample.open_incident] "Observability" None
           MoreSample.read_only_world).
  reflexivity.
Defined.

Lemma export_requests_per_resolved_incident_witness :
  sent (snd (write_incidents_to_csv Sample.repr
               [Sample.resolved_incident; Sample.open_incident] "Observability" None
               (Sample.world_of [Sample.log_resolved_by_ann])))
  = sent (Sample.world_of [Sample.log_resolved_by_ann])
    ++ map (fun inc => log_entries_request (py_str Sample.repr (incident_id inc)))
         (List.filter incident_is_resolved [Sample.resolved_incident; Sample.open_incident]).
Proof.
  apply (export_requests_per_resolved_incident Sample.repr
           [Sample.resolved_incident; Sample.open_incident] "Observability" None
           [Sample.log_resolved_by_ann] []
           (Sample.world_of [Sample.log_resolved_by_ann])); reflexivity.
Defined.

Lemma export_truncated_on_exception_witness :
  exists rows w',
    write_incidents_to_csv Sample.repr
      ([Sample.open_incident] ++ Sample.resolved_incident :: [Sample.open_incident])
      "Observability" None (Sample.world_of [Sample.html_page])
    = (Uncaught JSONDecodeError, w')
    /\ files w' !! csv_filename "Observability" None = Some (csv_headers :: rows)
    /\ Forall2 row_of_incident [Sample.open_incident] rows.
Proof.
  apply (export_truncated_on_exception Sample.repr [Sample.open_incident]
           Sample.resolved_incident [Sample.open_incident] "Observability" None
           [] "<html>Bad gateway</html>" [] (Sample.world_of [Sample.html_page]));
    reflexivity.
Defined.

Lemma timestamp_identifies_second_witness :
  to_iso8601_utc Sample.now = to_iso8601_utc MoreSample.now_later.
Proof.
  apply (proj2 (timestamp_identifies_second Sample.now MoreSample.now_later
                  ltac:(unfold Datetime.valid, Datetime.MAXORDINAL; cbn; lia)
                  ltac:(unfold Datetime.valid, Datetime.MAXORDINAL; cbn; lia))).
  repeat split.
Defined.

Lemma timestamp_date_prefix_witness :
  String.length (to_iso8601_utc Sample.now) = 20%nat
  /\ Py.take 10 (to_iso8601_utc Sample.now) = iso_date Sample.now.
Proof.
  apply (timestamp_date_prefix Sample.now).
  unfold Datetime.valid, Datetime.MAXORDINAL. cbn. lia.
Defined.

Lemma main_requires_token_witness :
  main Sample.repr Sample.int_of_str None (Sample.args 7) (Sample.world_of [Sample.teams_page])
  = (SysExit 1,
     set_stdout (Sample.world_of [Sample.teams_page])
       (stdout (Sample.world_of [Sample.teams_page])
        ++ [Print "[ERROR]: Please set the PAGERDUTY_API_TOKEN environment variable."])).
Proof.
  apply (main_requires_token Sample.repr Sample.int_of_str None (Sample.args 7)
           (Sample.world_of [Sample.teams_page])).
  reflexivity.
Defined.

Lemma main_blank_team_name_witness :
  exists w',
    main Sample.repr Sample.int_of_str (Some "token") MoreSample.args_unnamed
      (MoreSample.typed_world ["   "; "SRE"] [Sample.teams_page])
    = (SysExit 1, w')
    /\ stdout w' = stdout (MoreSample.typed_world ["   "; "SRE"] [Sample.teams_page])
                   ++ [Write "Enter the PagerDuty team name: ";
                       Print "[ERROR]: Team name cannot be empty."]
    /\ stdin w' = ["SRE"]
    /\ sent w' = sent (MoreSample.typed_world ["   "; "SRE"] [Sample.teams_page])
    /\ pending w' = pending (MoreSample.typed_world ["   "; "SRE"] [Sample.teams_page])
    /\ files w' = files (MoreSample.typed_world ["   "; "SRE"] [Sample.teams_page]).
Proof.
  apply (main_blank_team_name Sample.repr Sample.int_of_str (Some "token")
           MoreSample.args_unnamed
           (MoreSample.typed_world ["   "; "SRE"] [Sample.teams_page]) "   " ["SRE"]);
    reflexivity.
Defined.

Lemma main_fetches_well_formed_id_witness :
  is_pagerduty_team_id "PABC123" = true
  /\ validate_team_id "PABC123"
       (snd (main_setup Sample.repr (Some "token") (Sample.args 7)
               (Sample.world_of [Sample.teams_page])))
     = (Returned "PABC123",
        snd (main_setup Sample.repr (Some "token") (Sample.args 7)
               (Sample.world_of [Sample.teams_page])))
  /\ PyStr.is_empty "Observability" = false.
Proof.
  apply (main_fetches_well_formed_id Sample.repr (Some "token") (Sample.args 7)
           (Sample.world_of [Sample.teams_page])
           "Observability" "PABC123" 7 "2023-12-25T09:05:07Z" "2024-01-01T09:05:07Z"
           (snd (main_setup Sample.repr (Some "token") (Sample.args 7)
                   (Sample.world_of [Sample.teams_page])))).
  reflexivity.
Defined.

Lemma main_id_skips_team_lookup_witness :
  sent (snd (main_setup Sample.repr (Some "token") MoreSample.args_by_id
               (Sample.world_of [Sample.last_page])))
  = sent (Sample.world_of [Sample.last_page])
  /\ pending (snd (main_setup Sample.repr (Some "token") MoreSample.args_by_id
                     (Sample.world_of [Sample.last_page])))
     = pending (Sample.world_of [Sample.last_page])
  /\ stdin (snd (main_setup Sample.repr (Some "token") MoreSample.args_by_id
                   (Sample.world_of [Sample.last_page])))
     = stdin (Sample.world_of [Sample.last_page]).
Proof.
  destruct (main_id_skips_team_lookup Sample.repr (Some "token") MoreSample.args_by_id
              (Sample.world_of [Sample.last_page]) "PABC123" eq_refl eq_refl)
    as (Hsent & Hpending & Hstdin & _).
  exact (conj Hsent (conj Hpending Hstdin)).
Defined.

Lemma main_writes_one_file_witness :
  files (snd (main Sample.repr Sample.int_of_str (Some "token") (Sample.args 7)
                (Sample.world_of [Sample.teams_page; Sample.last_page]))) !! "notes.txt"
  = files (Sample.world_of [Sample.teams_page; Sample.last_page]) !! "notes.txt".
Proof.
  apply (main_writes_one_file Sample.repr Sample.int_of_str (Some "token") (Sample.args 7)
           (Sample.world_of [Sample.teams_page; Sample.last_page]) "Observability" "notes.txt").
  - reflexivity.
  - reflexivity.
  - cbv. intros H. discriminate H.
Defined.
